(** * Breakout analyzer: a shallow embedding of [breakout_analyzer.py]

    The analytical core of the script is three functions:
    - [fetch_and_prepare_data]: downloads a price/volume table, resets its
      index and adds the columns ['20d_avg_volume'] and ['daily_pct_change'];
    - [identify_breakout_days]: boolean-mask selection of the rows whose
      volume and daily change exceed two thresholds;
    - [calculate_holding_returns]: a loop over the selected rows that looks
      up the close [holding_period] rows later in the full table, then
      stores the list of returns as a column of the selected frame.

    Numbers.  pandas stores the columns as float64.  The embedding keeps the
    special values of IEEE arithmetic that decide the control flow (NaN and
    the two infinities) and computes finite values exactly, over [Q]:
    rounding, overflow and the sign of zero are not modelled.  The one
    place where rounding decides which way the program goes, the threshold
    of the selection, is also given with its roundings written out
    ([identify_breakout_days_rounded]).

    Objects.  A DataFrame is a mutable Python object.  Frames live in a
    store and the functions receive and return references, so that the
    in-place column assignment of [calculate_holding_returns] is visible
    to every holder of the reference. *)

From Stdlib Require Import QArith ZArith Lia List Bool.
From stdpp Require Import base option list strings gmap.

Local Open Scope Z_scope.

(** ** Float values *)

Module Float.

Inductive fval : Type :=
  | NaN
  | PInf
  | NInf
  | Fin (q : Q).

Definition Qltb (a b : Q) : bool :=
  match (a ?= b)%Q with Lt => true | _ => false end.

Definition Qzero (a : Q) : bool := Qeq_bool a 0.

(** Sign of a finite value, used for the products and quotients that
    involve an infinity: [Some true] positive, [Some false] negative,
    [None] zero. *)
Definition Qsign (a : Q) : option bool :=
  if Qzero a then None else Some (Qltb 0 a).

Definition inf_of (positive : bool) : fval :=
  if positive then PInf else NInf.

Definition fneg (x : fval) : fval :=
  match x with
  | NaN => NaN
  | PInf => NInf
  | NInf => PInf
  | Fin a => Fin (- a)
  end.

Definition fadd (x y : fval) : fval :=
  match x, y with
  | NaN, _ | _, NaN => NaN
  | PInf, NInf | NInf, PInf => NaN
  | PInf, _ | _, PInf => PInf
  | NInf, _ | _, NInf => NInf
  | Fin a, Fin b => Fin (a + b)
  end.

Definition fsub (x y : fval) : fval := fadd x (fneg y).

(** The sign of an operand: infinities have one, a finite zero has none. *)
Definition fsign (x : fval) : option bool :=
  match x with
  | NaN => None
  | PInf => Some true
  | NInf => Some false
  | Fin a => Qsign a
  end.

Definition fmul (x y : fval) : fval :=
  match x, y with
  | NaN, _ | _, NaN => NaN
  | Fin a, Fin b => Fin (a * b)
  | _, _ =>
      (* at least one infinity: inf * 0 is NaN, otherwise a signed inf *)
      match fsign x, fsign y with
      | Some s, Some t => inf_of (eqb s t)
      | _, _ => NaN
      end
  end.

Definition fdiv (x y : fval) : fval :=
  match x, y with
  | NaN, _ | _, NaN => NaN
  | Fin a, Fin b =>
      if Qzero b then
        (* x / 0: NaN for 0 / 0, otherwise an infinity with the sign of x *)
        match Qsign a with
        | None => NaN
        | Some s => inf_of s
        end
      else Fin (a / b)
  | Fin _, _ => Fin 0
  | _, Fin b =>
      (* inf / finite: the zero divisor counts as positive *)
      match fsign x, Qsign b with
      | Some s, Some t => inf_of (eqb s t)
      | Some s, None => inf_of s
      | None, _ => NaN
      end
  | _, _ => NaN
  end.

(** [x > y]; every comparison with NaN is false. *)
Definition fgt (x y : fval) : bool :=
  match x, y with
  | NaN, _ | _, NaN => false
  | PInf, PInf => false
  | PInf, _ => true
  | _, PInf => false
  | NInf, _ => false
  | Fin _, NInf => true
  | Fin a, Fin b => Qltb b a
  end.

(** Equality of float values up to the representation of rationals. *)
Definition feq (x y : fval) : Prop :=
  match x, y with
  | NaN, NaN | PInf, PInf | NInf, NInf => True
  | Fin a, Fin b => (a == b)%Q
  | _, _ => False
  end.

End Float.
Export Float.

Declare Scope float_scope.
Delimit Scope float_scope with F.
Infix "+" := fadd : float_scope.
Infix "-" := fsub : float_scope.
Infix "*" := fmul : float_scope.
Infix "/" := fdiv : float_scope.
Infix ">?" := fgt (at level 70) : float_scope.

(** ** The data model *)

(** One row of the table returned by the data provider: the columns the
    script reads.  [date] is the ordinal of the trading day. *)
Record Observation : Type := mkObs {
  o_date : Z;
  o_close : Q;
  o_volume : Q
}.

(** The cell of the column ['holding_return']: the column may be absent
    from the frame; when present a cell holds the element of the Python
    list [returns], which is [None] or a float. *)
Inductive hr_cell : Type :=
  | NoColumn
  | Cell (v : option fval).

(** A row of a DataFrame together with its index label ([row.name]). *)
Record Row : Type := mkRow {
  label : Z;
  date : Z;
  close : fval;
  volume : fval;
  avg_volume_20d : fval;
  daily_pct_change : fval;
  holding_return : hr_cell
}.

(** A DataFrame: its rows in order.  A frame built by the script has the
    column ['holding_return'] on every row or on none. *)
Abbreviation Frame := (list Row).

(** ** The pandas operations the script calls *)

Module Pandas.

(** [Series.rolling(window=w).mean()] with the default [min_periods = w]:
    the fixed-window aggregation keeps a running sum and a count of
    observations; entering a new position removes the value that leaves
    the window and adds the value that enters it, and the mean is emitted
    once the count reaches [min_periods]. *)
Definition calc_mean (minp nobs : nat) (sum_x : Q) : fval :=
  if ((minp <=? nobs)%nat && (0 <? nobs)%nat)%bool
  then Fin (sum_x / inject_Z (Z.of_nat nobs))
  else NaN.

Fixpoint roll_mean_loop (w : nat) (values : list Q) (todo i : nat)
    (sum_x : Q) (nobs : nat) : list fval :=
  match todo with
  | O => []
  | S todo' =>
      let '(sum1, nobs1) :=
        if (w <=? i)%nat
        then ((sum_x - nth (i - w) values 0)%Q, pred nobs)
        else (sum_x, nobs) in
      let sum2 := (sum1 + nth i values 0)%Q in
      let nobs2 := S nobs1 in
      calc_mean w nobs2 sum2 :: roll_mean_loop w values todo' (S i) sum2 nobs2
  end.

Definition rolling_mean (w : nat) (values : list Q) : list fval :=
  roll_mean_loop w values (length values) 0 0 0.

(** [Series.shift(1)]: every value moves one position down, the first
    position is filled with NaN and the last value falls off. *)
Definition shift1 (xs : list fval) : list fval :=
  take (length xs) (NaN :: xs).

(** [Series.pct_change()]: [xs / xs.shift(1) - 1], element by element. *)
Definition pct_change (xs : list fval) : list fval :=
  zip_with (fun x p => (x / p - Fin 1)%F) xs (shift1 xs).

(** Arithmetic and comparisons between a Series and a scalar or another
    Series of the same index. *)
Definition series_mul_scalar (xs : list fval) (k : fval) : list fval :=
  map (fun x => (x * k)%F) xs.

Definition scalar_mul_series (k : fval) (xs : list fval) : list fval :=
  map (fun x => (k * x)%F) xs.

Definition series_gt (xs ys : list fval) : list bool :=
  zip_with fgt xs ys.

Definition series_gt_scalar (xs : list fval) (k : fval) : list bool :=
  map (fun x => (x >? k)%F) xs.

Definition series_and (ms ns : list bool) : list bool :=
  zip_with andb ms ns.

(** [df[mask]]: the rows at which the mask is true, with their labels. *)
Fixpoint boolean_index (f : Frame) (mask : list bool) : Frame :=
  match f, mask with
  | r :: f', b :: mask' =>
      if b then r :: boolean_index f' mask' else boolean_index f' mask'
  | _, _ => []
  end.

(** [df.loc[k, 'Close']]: look the label up in the index. *)
Definition loc_close (f : Frame) (k : Z) : option fval :=
  close <$> List.find (fun r => label r =? k) f.

(** [df.loc[:, 'holding_return'] = values]: every row receives its cell
    of the column.  The script assigns to a frame that has no such column
    yet; on a frame that has one the model replaces it, while pandas
    decides by the type of the existing column. *)
Definition set_holding_return (f : Frame) (values : list (option fval)) : Frame :=
  zip_with (fun r v =>
    mkRow (label r) (date r) (close r) (volume r)
          (avg_volume_20d r) (daily_pct_change r) (Cell v)) f values.

End Pandas.
Export Pandas.

(** ** The store of frames and the monad of the script's functions *)

Inductive exn : Type :=
  | KeyError (k : Z)      (* raised by [data.loc] on a label that is absent *)
  | InvalidParameter      (* the failure the specification names *)
  | Dangling.             (* a reference to no object; Python has none *)

Abbreviation loc := nat.
Abbreviation store := (list (list Row)).

Inductive outcome (A : Type) : Type :=
  | Ok (a : A) (s : store)
  | Raise (e : exn) (s : store).
Arguments Ok {A} a s.
Arguments Raise {A} e s.

Definition M (A : Type) : Type := store -> outcome A.

#[global] Instance M_ret : MRet M := fun A a s => Ok a s.
#[global] Instance M_bind : MBind M := fun A B k m s =>
  match m s with
  | Ok a s' => k a s'
  | Raise e s' => Raise e s'
  end.

Definition read (l : loc) : M Frame := fun s =>
  match s !! l with
  | Some f => Ok f s
  | None => Raise Dangling s
  end.

Definition write (l : loc) (f : Frame) : M unit := fun s =>
  Ok tt (<[l := f]> s).

Definition alloc (f : Frame) : M loc := fun s =>
  Ok (length s) (s ++ [f]).

(** ** fetch_and_prepare_data *)

Definition window : nat := 20.

(** The frame after [reset_index]: labels 0, 1, 2, ... and the two
    computed columns attached position by position. *)
Fixpoint assemble (i : nat) (obs : list Observation) (avgs pcts : list fval) : Frame :=
  match obs, avgs, pcts with
  | o :: obs', a :: avgs', p :: pcts' =>
      mkRow (Z.of_nat i) (o_date o) (Fin (o_close o)) (Fin (o_volume o)) a p NoColumn
        :: assemble (S i) obs' avgs' pcts'
  | _, _, _ => []
  end.

Definition prepare (obs : list Observation) : Frame :=
  let avgs := rolling_mean window (map o_volume obs) in
  let pcts := series_mul_scalar (pct_change (map (fun o => Fin (o_close o)) obs)) (Fin 100) in
  assemble 0 obs avgs pcts.

(** [downloaded] is what [yf.download] produced: [None] when it raised,
    in which case the [except] branch returns [None]. *)
Definition fetch_and_prepare_data (downloaded : option (list Observation)) : M (option loc) :=
  match downloaded with
  | Some obs => l ← alloc (prepare obs); mret (Some l)
  | None => mret None
  end.

(** ** identify_breakout_days *)

Definition breakout_mask (f : Frame) (volume_threshold price_change_threshold : Q) : list bool :=
  series_and
    (series_gt (map volume f)
       (scalar_mul_series (Fin (volume_threshold / 100)) (map avg_volume_20d f)))
    (series_gt_scalar (map daily_pct_change f) (Fin price_change_threshold)).

Definition select_breakouts (f : Frame) (volume_threshold price_change_threshold : Q) : Frame :=
  boolean_index f (breakout_mask f volume_threshold price_change_threshold).

Definition identify_breakout_days (data : loc)
    (volume_threshold price_change_threshold : Q) : M loc :=
  d ← read data;
  alloc (select_breakouts d volume_threshold price_change_threshold).

(** *** The rounding of the threshold

    The columns hold float64 values and a comparison between two of them
    is exact, but the threshold [(volume_threshold / 100) * average] is
    the result of two float64 operations, each of which rounds.  The
    selection below writes the two roundings out; [rnd] maps a real number
    to the float64 that stands for it.  With the identity for [rnd] it is
    [identify_breakout_days] above. *)

(** The integer nearest to [n / d], the even one of two that are equally
    near; [n] is not negative and [d] is positive. *)
Definition round_half_even (n d : Z) : Z :=
  let q := n / d in
  let r := n mod d in
  match 2 * r ?= d with
  | Lt => q
  | Gt => q + 1
  | Eq => if Z.even q then q else q + 1
  end.

(** [n / d] divided by [2 ^ e], as a fraction. *)
Definition scale (n d e : Z) : Z * Z :=
  if 0 <=? e then (n, d * 2 ^ e) else (n * 2 ^ (- e), d).

(** Rounding of the positive number [n / d] to 53 significant bits. *)
Definition round64_pos (n d : Z) : Q :=
  let k := Z.log2 n - Z.log2 d in
  let '(n0, d0) := scale n d k in
  let k := if d0 <=? n0 then k else k - 1 in
  let e := k - 52 in
  let '(n1, d1) := scale n d e in
  let m := round_half_even n1 d1 in
  if 0 <=? e then inject_Z (m * 2 ^ e) else Qmake m (Z.to_pos (2 ^ (- e))).

(** Rounding to the nearest float64, ties to even, for numbers in the
    normal range (no overflow, no subnormal numbers). *)
Definition round64 (q : Q) : Q :=
  match Qnum q with
  | 0 => 0%Q
  | Zpos n => round64_pos (Zpos n) (Zpos (Qden q))
  | Zneg n => Qopp (round64_pos (Zpos n) (Zpos (Qden q)))
  end.

Definition fmul_rounded (rnd : Q -> Q) (x y : fval) : fval :=
  match x, y with
  | Fin a, Fin b => Fin (rnd (a * b)%Q)
  | _, _ => fmul x y
  end.

Definition scalar_mul_series_rounded (rnd : Q -> Q) (k : fval) (xs : list fval) : list fval :=
  map (fun x => fmul_rounded rnd k x) xs.

Definition breakout_mask_rounded (rnd : Q -> Q) (f : Frame)
    (volume_threshold price_change_threshold : Q) : list bool :=
  series_and
    (series_gt (map volume f)
       (scalar_mul_series_rounded rnd (Fin (rnd (volume_threshold / 100)%Q))
          (map avg_volume_20d f)))
    (series_gt_scalar (map daily_pct_change f) (Fin price_change_threshold)).

Definition select_breakouts_rounded (rnd : Q -> Q) (f : Frame)
    (volume_threshold price_change_threshold : Q) : Frame :=
  boolean_index f (breakout_mask_rounded rnd f volume_threshold price_change_threshold).

Definition identify_breakout_days_rounded (rnd : Q -> Q) (data : loc)
    (volume_threshold price_change_threshold : Q) : M loc :=
  d ← read data;
  alloc (select_breakouts_rounded rnd d volume_threshold price_change_threshold).

(** ** calculate_holding_returns *)

Definition holding_return_of (end_close start_close : fval) : fval :=
  ((end_close - start_close) / start_close * Fin 100)%F.

(** The body of the [for] loop, for one row of [breakout_days]. *)
Definition holding_return_row (d : Frame) (holding_period : Z) (row : Row)
    : exn + option fval :=
  let breakout_index := label row in
  let holding_end_index := breakout_index + holding_period in
  if holding_end_index <? Z.of_nat (length d) then
    match loc_close d holding_end_index with
    | Some c => inr (Some (holding_return_of c (close row)))
    | None => inl (KeyError holding_end_index)
    end
  else inr None.

(** The loop: [returns] grows by one element per row; an exception leaves
    the loop at once. *)
Fixpoint holding_returns_loop (d : Frame) (holding_period : Z) (rows : list Row)
    (returns : list (option fval)) : exn + list (option fval) :=
  match rows with
  | [] => inr returns
  | row :: rows' =>
      match holding_return_row d holding_period row with
      | inl e => inl e
      | inr v => holding_returns_loop d holding_period rows' (returns ++ [v])
      end
  end.

Definition lift {A : Type} (r : exn + A) : M A := fun s =>
  match r with
  | inl e => Raise e s
  | inr a => Ok a s
  end.

Definition calculate_holding_returns (data breakout_days : loc) (holding_period : Z) : M loc :=
  d ← read data;
  b ← read breakout_days;
  returns ← lift (holding_returns_loop d holding_period b []);
  _ ← write breakout_days (set_holding_return b returns);
  mret breakout_days.

(** ** The pipeline of [main] *)

Definition analyze (downloaded : option (list Observation))
    (volume_threshold price_change_threshold : Q) (holding_period : Z) : M (option loc) :=
  data ← fetch_and_prepare_data downloaded;
  match data with
  | Some d =>
      b ← identify_breakout_days d volume_threshold price_change_threshold;
      b' ← calculate_holding_returns d b holding_period;
      mret (Some b')
  | None => mret None
  end.

(** * Vocabulary of the properties *)

(** The arithmetic mean the rolling average is compared with. *)
Fixpoint Qsum (l : list Q) : Q :=
  match l with
  | [] => 0
  | x :: l' => x + Qsum l'
  end.

Definition mean (l : list Q) : Q :=
  (Qsum l / inject_Z (Z.of_nat (length l)))%Q.

(** The [w] values at the positions [t - (w - 1) .. t]. *)
Definition window_values (w : nat) (values : list Q) (t : nat) : list Q :=
  take w (drop (S t - w) values).

(** The sum of the [k] values from position [lo] on. *)
Fixpoint range_sum (values : list Q) (lo k : nat) : Q :=
  match k with
  | O => 0
  | S k' => (nth lo values 0 + range_sum values (S lo) k')%Q
  end.

(** The state of the loop when it enters position [i]: the count is the
    number of positions seen, capped by the window, and the running sum
    is the sum of that many values before [i]. *)
Definition roll_inv (w : nat) (values : list Q) (i : nat) (s : Q) (n : nat) : Prop :=
  n = Nat.min i w /\ (s == range_sum values (i - n) n)%Q.

Definition closes (obs : list Observation) : list fval :=
  map (fun o => Fin (o_close o)) obs.

(** Labels of the prepared frame are the positions: [reset_index]. *)
Definition range_indexed (f : Frame) : Prop :=
  forall (t : nat) (r : Row), f !! t = Some r -> label r = Z.of_nat t.

(** The mask, row by row. *)
Definition is_breakout (volume_threshold price_change_threshold : Q) (r : Row) : bool :=
  ((volume r >? Fin (volume_threshold / 100) * avg_volume_20d r)%F &&
   (daily_pct_change r >? Fin price_change_threshold)%F)%bool.

(** The mask with the rounded threshold, row by row. *)
Definition is_breakout_rounded (rnd : Q -> Q)
    (volume_threshold price_change_threshold : Q) (r : Row) : bool :=
  ((volume r >? fmul_rounded rnd (Fin (rnd (volume_threshold / 100)%Q))
                  (avg_volume_20d r))%F &&
   (daily_pct_change r >? Fin price_change_threshold)%F)%bool.

(** The fields of a row other than the holding return. *)
Definition base (r : Row) : Z * Z * fval * fval * fval * fval :=
  (label r, date r, close r, volume r, avg_volume_20d r, daily_pct_change r).

Definition indexed_from (i : nat) (f : Frame) : Prop :=
  forall (t : nat) (r : Row), f !! t = Some r -> label r = Z.of_nat (i + t).

(** The rows of a breakout subset are rows of the data, found at the
    position their label names. *)
Definition breakouts_of (d b : Frame) : Prop :=
  forall r, r ∈ b ->
    0 <= label r /\
    exists r0, d !! Z.to_nat (label r) = Some r0 /\ base r0 = base r.

(** * Sample data *)

(** Daily observations. *)
Definition flat_day (i : nat) : Observation :=
  mkObs (Z.of_nat i) 100 1000000.

Definition rising_day (i : nat) : Observation :=
  mkObs (Z.of_nat i) (100 + inject_Z (Z.of_nat i)) 1000000.

(** Rows of prepared frames: an ordinary day, and days whose volume is
    about three times the average with a rise of 3 or 2 percent. *)
Definition quiet_row (i : Z) : Row :=
  mkRow i i (Fin 100) (Fin 1000000) (Fin 1000000) (Fin 0) NoColumn.

Definition surge_row (i : Z) : Row :=
  mkRow i i (Fin 103) (Fin 3000000) (Fin 1100000) (Fin 3) NoColumn.

Definition three_rows : Frame := [quiet_row 0; surge_row 1; quiet_row 2].

Definition undefined_avg_row (i : Z) : Row :=
  mkRow i i (Fin 103) (Fin 3000000) NaN (Fin 3) NoColumn.

Definition undefined_pct_row (i : Z) : Row :=
  mkRow i i (Fin 103) (Fin 3000000) (Fin 1100000) NaN NoColumn.

Definition edge_rows : Frame :=
  [undefined_pct_row 0; undefined_avg_row 1; surge_row 2].

Definition mild_row (i : Z) : Row :=
  mkRow i i (Fin 102) (Fin 3000000) (Fin 1100000) (Fin 2) NoColumn.

Definition two_surges : Frame := [mild_row 0; surge_row 1].

(** A day whose volume, 29, is 29 percent of its average of 100, and a
    day just below. *)
Definition boundary_row (i : Z) : Row :=
  mkRow i i (Fin 103) (Fin 29) (Fin 100) (Fin 3) NoColumn.

Definition below_row (i : Z) : Row :=
  mkRow i i (Fin 103) (Fin (289 # 10)) (Fin 100) (Fin 3) NoColumn.

Definition boundary_rows : Frame := [boundary_row 0; below_row 1].

(** A series of five closes and the breakout subset of its rows 1 and 4. *)
Definition price_row (i : Z) (c : Q) : Row :=
  mkRow i i (Fin c) (Fin 3000000) (Fin 1000000) (Fin 5) NoColumn.

Definition five_days : Frame :=
  [price_row 0 100; price_row 1 110; price_row 2 120; price_row 3 132; price_row 4 140].

Definition two_breakouts : Frame := [price_row 1 110; price_row 4 140].

(** The frame [two_breakouts] after the call with holding period 2. *)
Definition two_breakouts_measured : Frame :=
  set_holding_return two_breakouts
    [Some ((Fin 132 - Fin 110) / Fin 110 * Fin 100)%F; None].

(** The breakout frame [[surge_row 1]] of [three_rows] after a call with
    a holding period of 0 (exit at its own row) or of -1 (exit at the row
    before). *)
Definition surge_after (h : Z) : Frame :=
  set_holding_return [surge_row 1]
    [Some ((close (if h =? 0 then surge_row 1 else quiet_row 0) - Fin 103)
           / Fin 103 * Fin 100)%F].

(** The series of 25 days with a single surge on day 20: volume 3,000,000
    against 1,000,000 on the other days, and a rise of 3 percent. *)
Definition surge_day_20 (i : nat) : Observation :=
  mkObs (Z.of_nat i)
        (if (20 <=? i)%nat then 103 else 100)
        (if (i =? 20)%nat then 3000000 else 1000000).

Definition surge_series : list Observation := map surge_day_20 (seq 0 25).

(** * The report and the page *)

(** [generate_report] and [main] write a file and call Streamlit.  The
    file system maps a file name to the table stored under it, and the
    page is the list of the display calls made so far; the input widgets
    are represented by the values they return. *)

(** The table that [to_csv(filename, index=False)] stores: the rows
    without their index labels. *)
Abbreviation csv := (list (Z * fval * fval * fval * fval * hr_cell)).

Definition to_csv (f : Frame) : csv :=
  map (fun r => (date r, close r, volume r, avg_volume_20d r,
                 daily_pct_change r, holding_return r)) f.

Inductive st_call : Type :=
  | st_title (text : string)
  | st_write (text : string)
  | st_error (text : string)
  | st_success (text : string)
  | st_warning (text : string)
  | st_download_button (caption : string) (data : csv) (file_name mime : string)
  | st_dataframe (f : Frame).

(** The file system: the tables stored under the file names, and the
    names that can be opened for writing (a name in a missing directory,
    or one that is too long, cannot). *)
Record file_system : Type := mkFs {
  stored : gmap string csv;
  openable : string -> bool
}.

#[global] Instance fs_empty : Empty file_system := mkFs ∅ (fun _ => true).
#[global] Instance fs_lookup : Lookup string csv file_system :=
  fun name fs => stored fs !! name.
#[global] Instance fs_insert : Insert string csv file_system :=
  fun name content fs => mkFs (<[name := content]> (stored fs)) (openable fs).

Record world : Type := mkWorld {
  frames : store;
  files : file_system;
  page : list st_call
}.

Inductive app_exn : Type :=
  | FrameError (e : exn)               (* raised by the functions on frames *)
  | FileNotFoundError (name : string)  (* raised by [open] *)
  | OSError (name : string).           (* raised by [to_csv] on a path it cannot open *)

Inductive app_outcome (A : Type) : Type :=
  | Done (a : A) (w : world)
  | Uncaught (e : app_exn) (w : world).
Arguments Done {A} a w.
Arguments Uncaught {A} e w.

Definition App (A : Type) : Type := world -> app_outcome A.

#[global] Instance App_ret : MRet App := fun A a w => Done a w.
#[global] Instance App_bind : MBind App := fun A B k m w =>
  match m w with
  | Done a w' => k a w'
  | Uncaught e w' => Uncaught e w'
  end.

(** A function on frames, run on the frames of the world. *)
Definition run {A : Type} (m : M A) : App A := fun w =>
  match m (frames w) with
  | Ok a s => Done a (mkWorld s (files w) (page w))
  | Raise e s => Uncaught (FrameError e) (mkWorld s (files w) (page w))
  end.

Definition st (c : st_call) : App unit := fun w =>
  Done tt (mkWorld (frames w) (files w) (page w ++ [c])).

Definition write_file (name : string) (content : csv) : App unit := fun w =>
  if openable (files w) name
  then Done tt (mkWorld (frames w) (<[name := content]> (files w)) (page w))
  else Uncaught (OSError name) w.

Definition open_file (name : string) : App csv := fun w =>
  match files w !! name with
  | Some content => Done content w
  | None => Uncaught (FileNotFoundError name) w
  end.

(** [fetch_and_prepare_data] with its message: [downloaded] is the table
    that [yf.download] returned, or the text of the exception it raised,
    which the [except] branch shows before it returns [None]. *)
Definition fetch_and_prepare_data_app (ticker : string)
    (downloaded : string + list Observation) : App (option loc) :=
  match downloaded with
  | inr obs => run (fetch_and_prepare_data (Some obs))
  | inl e =>
      _ ← st (st_error ("Error fetching data for " +:+ ticker +:+ ": " +:+ e));
      run (fetch_and_prepare_data None)
  end.

Definition generate_report (data : loc) (filename : string) : App unit :=
  f ← run (read data);
  _ ← write_file filename (to_csv f);
  _ ← st (st_success ("Report saved as " +:+ filename +:+ ". You can download it below."));
  content ← open_file filename;
  st (st_download_button "Download Report" content filename "text/csv").

(** The values of the input widgets of [main]; the number input of the
    holding period has [min_value=1]. *)
Record widgets : Type := mkWidgets {
  ticker : string;
  start_date : Z;
  end_date : Z;
  volume_threshold : Q;
  price_change_threshold : Q;
  holding_period : Z;
  generate_report_button : bool
}.

Definition intro_text : string :=
  "
        Analyze stock breakout signals based on volume and price thresholds, and calculate returns for a specified holding period.
        ".

Definition no_breakout_text : string :=
  "No breakout signals identified based on the given parameters.".

Definition report_name (ui : widgets) : string :=
  ticker ui +:+ "_breakout_report.csv".

Definition main (ui : widgets) (downloaded : string + list Observation) : App unit :=
  _ ← st (st_title "Stock Breakout Analyzer");
  _ ← st (st_write intro_text);
  if generate_report_button ui then
    data ← fetch_and_prepare_data_app (ticker ui) downloaded;
    match data with
    | Some d =>
        b ← run (identify_breakout_days d (volume_threshold ui)
                   (price_change_threshold ui));
        b ← run (calculate_holding_returns d b (holding_period ui));
        breakout_days ← run (read b);
        match breakout_days with
        | _ :: _ =>
            _ ← generate_report b (report_name ui);
            _ ← st (st_write "Breakout Statistics:");
            st (st_dataframe breakout_days)
        | [] => st (st_warning no_breakout_text)
        end
    | None => mret tt
    end
  else mret tt.

(** The page of a run that wrote a report for the frame [b]. *)
Definition report_page (ui : widgets) (b : Frame) : list st_call :=
  [st_title "Stock Breakout Analyzer"; st_write intro_text;
   st_success ("Report saved as " +:+ report_name ui +:+ ". You can download it below.");
   st_download_button "Download Report" (to_csv b) (report_name ui) "text/csv";
   st_write "Breakout Statistics:";
   st_dataframe b].

(** Sample widget values: the defaults of the form, with the button
    pressed. *)
Definition default_widgets : widgets :=
  mkWidgets "AAPL" 0 24 200 2 10 true.

Definition empty_world : world := mkWorld [] ∅ [].



(** * Properties *)

(** ** Lists and lookups *)

Lemma lookup_map {A B : Type} (f : A -> B) (l : list A) (i : nat) :
  map f l !! i = f <$> (l !! i).
Proof.
  revert i; induction l as [|x l IH]; intros [|i]; simpl; auto.
Qed.

Lemma nth_of_lookup {A : Type} (l : list A) (i : nat) (d x : A) :
  l !! i = Some x -> nth i l d = x.
Proof. apply nth_lookup_Some. Qed.

(** ** The rolling mean *)

Lemma range_sum_snoc (values : list Q) (lo k : nat) :
  (range_sum values lo (S k) == range_sum values lo k + nth (lo + k) values 0)%Q.
Proof.
  revert lo; induction k as [|k IH]; intros lo.
  - simpl. rewrite Nat.add_0_r. ring.
  - change (range_sum values lo (S (S k)))
      with (nth lo values 0 + range_sum values (S lo) (S k))%Q.
    rewrite IH. simpl. replace (lo + S k)%nat with (S (lo + k)) by lia. ring.
Qed.

Lemma range_sum_take_drop (values : list Q) (lo k : nat) :
  (lo + k <= length values)%nat ->
  (range_sum values lo k == Qsum (take k (drop lo values)))%Q.
Proof.
  revert lo; induction k as [|k IH]; intros lo Hle.
  - simpl. reflexivity.
  - destruct (drop lo values) as [|x rest] eqn:Hd.
    + apply (f_equal length) in Hd. rewrite length_drop in Hd. simpl in Hd. lia.
    + assert (Hx : values !! lo = Some x).
      { pose proof (lookup_drop values lo 0) as Hl.
        rewrite Hd, Nat.add_0_r in Hl. symmetry. exact Hl. }
      assert (Hr : drop (S lo) values = rest).
      { replace (S lo) with (lo + 1)%nat by lia.
        rewrite <- drop_drop, Hd. reflexivity. }
      simpl. rewrite (nth_of_lookup _ _ _ _ Hx), IH by lia. rewrite Hr. reflexivity.
Qed.

Lemma roll_mean_loop_length (w : nat) (values : list Q) (todo i : nat) (s : Q) (n : nat) :
  length (roll_mean_loop w values todo i s n) = todo.
Proof.
  revert i s n; induction todo as [|todo IH]; intros i s n; simpl; auto.
  destruct (w <=? i)%nat; simpl; rewrite IH; reflexivity.
Qed.

Lemma roll_inv_step (w : nat) (values : list Q) (i : nat) (s : Q) (n : nat) :
  (0 < w)%nat ->
  roll_inv w values i s n ->
  let '(s1, n1) :=
    if (w <=? i)%nat then ((s - nth (i - w) values 0)%Q, pred n) else (s, n) in
  roll_inv w values (S i) (s1 + nth i values 0)%Q (S n1).
Proof.
  intros Hw [Hn Hs].
  destruct (w <=? i)%nat eqn:Hwi.
  - apply Nat.leb_le in Hwi.
    assert (Hnw : n = w) by lia. clear Hn. subst n.
    destruct w as [|w']; [lia|]. simpl pred.
    split; [lia|].
    replace (S i - S w')%nat with (S (i - S w')) by lia.
    rewrite range_sum_snoc.
    replace (S (i - S w') + w')%nat with i by lia.
    rewrite Hs. simpl. ring.
  - apply Nat.leb_gt in Hwi.
    assert (Hni : n = i) by lia. clear Hn. subst n.
    split; [lia|].
    replace (S i - S i)%nat with 0%nat by lia.
    rewrite range_sum_snoc. rewrite Hs.
    replace (i - i)%nat with 0%nat by lia. simpl. reflexivity.
Qed.

Lemma roll_mean_loop_lookup (w : nat) (values : list Q) :
  (0 < w)%nat ->
  forall (todo i : nat) (s : Q) (n t : nat),
    roll_inv w values i s n ->
    (t < todo)%nat ->
    exists v, roll_mean_loop w values todo i s n !! t = Some v /\
      (if (w <=? S (i + t))%nat
       then feq v (Fin (range_sum values (S (i + t) - w) w / inject_Z (Z.of_nat w)))
       else v = NaN).
Proof.
  intros Hw todo; induction todo as [|todo IH]; intros i s n t Hinv Ht; [lia|].
  pose proof (roll_inv_step w values i s n Hw Hinv) as Hstep.
  simpl. destruct (if (w <=? i)%nat then _ else _) as [s1 n1] eqn:Hupd.
  destruct t as [|t].
  - simpl. eexists; split; [reflexivity|].
    destruct Hstep as [Hn Hs]. rewrite Nat.add_0_r.
    unfold calc_mean.
    destruct (w <=? S i)%nat eqn:Hc.
    + apply Nat.leb_le in Hc.
      assert (Hn' : S n1 = w) by lia.
      assert (Hpos : (0 <? S n1)%nat = true) by (apply Nat.ltb_lt; lia).
      rewrite Hpos, Hn', Nat.leb_refl. simpl.
      rewrite Hs, Hn'. reflexivity.
    + apply Nat.leb_gt in Hc.
      assert (Hf : (w <=? S n1)%nat = false) by (apply Nat.leb_gt; lia).
      rewrite Hf. reflexivity.
  - simpl.
    destruct (IH (S i) (s1 + nth i values 0)%Q (S n1) t Hstep ltac:(lia))
      as (v & Hv & Hprop).
    exists v; split; [exact Hv|].
    replace (i + S t)%nat with (S i + t)%nat by lia. exact Hprop.
Qed.

Lemma rolling_mean_length (w : nat) (values : list Q) :
  length (rolling_mean w values) = length values.
Proof. apply roll_mean_loop_length. Qed.

Lemma rolling_mean_lookup (w : nat) (values : list Q) (t : nat) :
  (0 < w)%nat ->
  (t < length values)%nat ->
  exists v, rolling_mean w values !! t = Some v /\
    (if (w <=? S t)%nat
     then feq v (Fin (mean (window_values w values t))) /\
          length (window_values w values t) = w
     else v = NaN).
Proof.
  intros Hw Ht.
  destruct (roll_mean_loop_lookup w values Hw (length values) 0 0%Q 0%nat t)
    as (v & Hv & Hprop).
  { split; [lia|]. simpl. reflexivity. }
  { exact Ht. }
  exists v; split; [exact Hv|].
  simpl in Hprop. destruct (w <=? S t)%nat eqn:Hc; [|exact Hprop].
  apply Nat.leb_le in Hc.
  assert (Hlen : length (window_values w values t) = w).
  { unfold window_values. rewrite length_take, length_drop. lia. }
  split; [|exact Hlen].
  destruct v; simpl in Hprop |- *; try contradiction.
  unfold mean. rewrite Hlen, Hprop.
  unfold window_values. rewrite range_sum_take_drop by lia. reflexivity.
Qed.

(** ** The percent change *)

Lemma shift1_length (xs : list fval) : length (shift1 xs) = length xs.
Proof. unfold shift1. rewrite length_take. simpl. lia. Qed.

Lemma shift1_lookup (xs : list fval) (t : nat) :
  (t < length xs)%nat -> shift1 xs !! t = (NaN :: xs) !! t.
Proof. intros Ht. unfold shift1. apply lookup_take_lt. exact Ht. Qed.

Lemma pct_change_length (xs : list fval) : length (pct_change xs) = length xs.
Proof. unfold pct_change. rewrite length_zip_with, shift1_length. lia. Qed.

Lemma pct_change_first (xs : list fval) (x : fval) :
  xs !! 0%nat = Some x -> pct_change xs !! 0%nat = Some NaN.
Proof.
  intros Hx. unfold pct_change. rewrite lookup_zip_with, Hx.
  rewrite shift1_lookup by (eapply lookup_lt_Some; eauto).
  simpl. destruct x; reflexivity.
Qed.

Lemma pct_change_next (xs : list fval) (t : nat) (x p : fval) :
  xs !! S t = Some x -> xs !! t = Some p ->
  pct_change xs !! S t = Some (x / p - Fin 1)%F.
Proof.
  intros Hx Hp. unfold pct_change. rewrite lookup_zip_with, Hx.
  rewrite shift1_lookup by (eapply lookup_lt_Some; eauto).
  simpl. rewrite Hp. reflexivity.
Qed.

(** ** The prepared frame *)

Lemma assemble_length (obs : list Observation) (avgs pcts : list fval) (i : nat) :
  length avgs = length obs -> length pcts = length obs ->
  length (assemble i obs avgs pcts) = length obs.
Proof.
  revert avgs pcts i; induction obs as [|o obs IH]; intros avgs pcts i Ha Hp.
  - reflexivity.
  - destruct avgs as [|a avgs]; [discriminate|].
    destruct pcts as [|p pcts]; [discriminate|].
    simpl. rewrite IH; auto.
Qed.

Lemma assemble_lookup (obs : list Observation) (avgs pcts : list fval) (i t : nat)
    (o : Observation) (a p : fval) :
  obs !! t = Some o -> avgs !! t = Some a -> pcts !! t = Some p ->
  assemble i obs avgs pcts !! t =
    Some (mkRow (Z.of_nat (i + t)) (o_date o) (Fin (o_close o)) (Fin (o_volume o))
            a p NoColumn).
Proof.
  revert avgs pcts i t; induction obs as [|o' obs IH]; intros avgs pcts i t Ho Ha Hp.
  - discriminate.
  - destruct avgs as [|a' avgs]; [discriminate|].
    destruct pcts as [|p' pcts]; [discriminate|].
    destruct t as [|t]; simpl in *.
    + inversion Ho; inversion Ha; inversion Hp; subst.
      rewrite Nat.add_0_r. reflexivity.
    + replace (i + S t)%nat with (S i + t)%nat by lia.
      exact (IH avgs pcts (S i) t Ho Ha Hp).
Qed.

Lemma prepare_length (obs : list Observation) : length (prepare obs) = length obs.
Proof.
  unfold prepare. apply assemble_length.
  - rewrite rolling_mean_length, length_map. reflexivity.
  - unfold series_mul_scalar. rewrite length_map, pct_change_length, length_map.
    reflexivity.
Qed.

(** The row of the prepared frame at position [t], column by column. *)
Lemma prepare_lookup (obs : list Observation) (t : nat) (o : Observation) :
  obs !! t = Some o ->
  exists a p,
    rolling_mean window (map o_volume obs) !! t = Some a /\
    pct_change (closes obs) !! t = Some p /\
    prepare obs !! t =
      Some (mkRow (Z.of_nat t) (o_date o) (Fin (o_close o)) (Fin (o_volume o))
              a (p * Fin 100)%F NoColumn).
Proof.
  intros Ho.
  pose proof (lookup_lt_Some _ _ _ Ho) as Ht.
  destruct (lookup_lt_is_Some_2 (rolling_mean window (map o_volume obs)) t) as [a Ha].
  { rewrite rolling_mean_length, length_map. exact Ht. }
  destruct (lookup_lt_is_Some_2 (pct_change (closes obs)) t) as [p Hp].
  { unfold closes. rewrite pct_change_length, length_map. exact Ht. }
  exists a, p. split; [exact Ha|]. split; [exact Hp|].
  unfold prepare.
  rewrite (assemble_lookup obs _ _ 0 t o a (p * Fin 100)%F Ho Ha).
  - reflexivity.
  - unfold series_mul_scalar. rewrite lookup_map. fold (closes obs).
    rewrite Hp. reflexivity.
Qed.

Lemma prepare_range_indexed (obs : list Observation) : range_indexed (prepare obs).
Proof.
  intros t r Hr.
  destruct (lookup_lt_is_Some_2 obs t) as [o Ho].
  { rewrite <- prepare_length. eapply lookup_lt_Some; eauto. }
  destruct (prepare_lookup obs t o Ho) as (a & p & _ & _ & Hrow).
  rewrite Hrow in Hr. inversion Hr. reflexivity.
Qed.

(** C3: in the frame that [fetch_and_prepare_data] builds, the 20-day
    average volume of the row at position [t] is the arithmetic mean of
    the 20 volumes at positions [t-19 .. t] when [t >= 19], and NaN
    (undefined) when [t < 19]; a series shorter than 20 rows therefore
    has no defined average at all. *)
Theorem rolling_avg_volume_spec (obs : list Observation) (t : nat) :
  (t < length obs)%nat ->
  exists r, prepare obs !! t = Some r /\
    ((19 <= t)%nat ->
       length (window_values 20 (map o_volume obs) t) = 20%nat /\
       window_values 20 (map o_volume obs) t
         = take 20 (drop (t - 19) (map o_volume obs)) /\
       feq (avg_volume_20d r) (Fin (mean (window_values 20 (map o_volume obs) t)))) /\
    ((t < 19)%nat -> avg_volume_20d r = NaN) /\
    ((length obs < 20)%nat -> avg_volume_20d r = NaN).
Proof.
  intros Ht.
  destruct (lookup_lt_is_Some_2 obs t Ht) as [o Ho].
  destruct (prepare_lookup obs t o Ho) as (a & p & Ha & _ & Hrow).
  eexists; split; [exact Hrow|]. simpl.
  destruct (rolling_mean_lookup window (map o_volume obs) t) as (v & Hv & Hprop).
  { unfold window; lia. }
  { rewrite length_map; exact Ht. }
  rewrite Ha in Hv. inversion Hv; subst v. unfold window in Hprop.
  destruct (20 <=? S t)%nat eqn:Hc.
  - apply Nat.leb_le in Hc. destruct Hprop as [Hfeq Hlen].
    split; [intros _|split; intros; lia].
    split; [exact Hlen|]. split; [|exact Hfeq].
    unfold window_values. replace (S t - 20)%nat with (t - 19)%nat by lia. reflexivity.
  - apply Nat.leb_gt in Hc.
    split; [intros; lia|]. split; intros; exact Hprop.
Qed.

Lemma rolling_avg_volume_spec_witness :
  (19 < length (map flat_day (seq 0 21)))%nat /\
  exists r, prepare (map flat_day (seq 0 21)) !! 19%nat = Some r /\
    feq (avg_volume_20d r) (Fin 1000000).
Proof.
  split; [simpl; lia|].
  destruct (rolling_avg_volume_spec (map flat_day (seq 0 21)) 19) as (r & Hr & H19 & _).
  { simpl; lia. }
  exists r; split; [exact Hr|].
  destruct (H19 ltac:(lia)) as (_ & _ & Hfeq).
  destruct (avg_volume_20d r); simpl in Hfeq |- *; try contradiction.
  rewrite Hfeq. vm_compute. reflexivity.
Defined.

(** C4: in the frame that [fetch_and_prepare_data] builds, the daily
    percent change of the first row is NaN (undefined), and for every
    later row it is [(close[t] / close[t-1] - 1) * 100]: recomputing it
    from the closes stored in rows [t-1] and [t] gives the stored value. *)
Theorem daily_pct_change_spec (obs : list Observation) (t : nat) :
  (t < length obs)%nat ->
  exists r, prepare obs !! t = Some r /\
    (t = 0%nat -> daily_pct_change r = NaN) /\
    ((1 <= t)%nat ->
       exists r', prepare obs !! (t - 1)%nat = Some r' /\
         daily_pct_change r = ((close r / close r' - Fin 1) * Fin 100)%F) /\
    (forall o, obs !! t = Some o -> close r = Fin (o_close o)).
Proof.
  intros Ht.
  destruct (lookup_lt_is_Some_2 obs t Ht) as [o Ho].
  destruct (prepare_lookup obs t o Ho) as (a & p & _ & Hp & Hrow).
  eexists; split; [exact Hrow|]. simpl.
  assert (Hc : closes obs !! t = Some (Fin (o_close o))).
  { unfold closes. rewrite lookup_map, Ho. reflexivity. }
  split; [|split].
  - intros ->. rewrite (pct_change_first _ _ Hc) in Hp.
    inversion Hp. reflexivity.
  - intros H1. destruct t as [|t]; [lia|].
    replace (S t - 1)%nat with t by lia.
    destruct (lookup_lt_is_Some_2 obs t ltac:(lia)) as [o' Ho'].
    destruct (prepare_lookup obs t o' Ho') as (a' & p' & _ & _ & Hrow').
    eexists; split; [exact Hrow'|]. simpl.
    assert (Hc' : closes obs !! t = Some (Fin (o_close o'))).
    { unfold closes. rewrite lookup_map, Ho'. reflexivity. }
    rewrite (pct_change_next _ _ _ _ Hc Hc') in Hp.
    inversion Hp. reflexivity.
  - intros o2 Ho2. rewrite Ho in Ho2. inversion Ho2. reflexivity.
Qed.

Lemma daily_pct_change_spec_witness :
  (1 < length (map rising_day (seq 0 3)))%nat /\
  exists r, prepare (map rising_day (seq 0 3)) !! 1%nat = Some r /\
    daily_pct_change r = ((Fin (101 # 1) / Fin (100 # 1) - Fin 1) * Fin 100)%F.
Proof.
  split; [simpl; lia|].
  destruct (daily_pct_change_spec (map rising_day (seq 0 3)) 1) as (r & Hr & _ & Hnext & _).
  { simpl; lia. }
  exists r; split; [exact Hr|].
  destruct (Hnext ltac:(lia)) as (r' & Hr' & Heq).
  rewrite Heq.
  vm_compute in Hr, Hr'. inversion Hr; inversion Hr'. reflexivity.
Defined.

(** ** Comparisons *)

Lemma Qltb_lt (a b : Q) : Qltb a b = true <-> (a < b)%Q.
Proof.
  unfold Qltb. rewrite Qlt_alt.
  destruct (a ?= b)%Q; split; intros H; try reflexivity; discriminate.
Qed.

Lemma fgt_nan_r (x : fval) : (x >? NaN)%F = false.
Proof. destruct x; reflexivity. Qed.

Lemma fgt_nan_l (y : fval) : (NaN >? y)%F = false.
Proof. reflexivity. Qed.

Lemma fmul_nan_r (x : fval) : (x * NaN)%F = NaN.
Proof. destruct x; reflexivity. Qed.

Lemma fgt_fin (a b : Q) : (Fin a >? Fin b)%F = true <-> (b < a)%Q.
Proof. simpl. apply Qltb_lt. Qed.

Lemma fgt_lower (x : fval) (p1 p2 : Q) :
  (p1 < p2)%Q -> (x >? Fin p2)%F = true -> (x >? Fin p1)%F = true.
Proof.
  intros Hlt. destruct x; simpl; auto.
  rewrite !Qltb_lt. intros H. eapply Qlt_trans; eauto.
Qed.

(** ** The breakout selection *)

Lemma breakout_mask_rows (f : Frame) (vt pt : Q) :
  breakout_mask f vt pt = map (is_breakout vt pt) f.
Proof.
  unfold breakout_mask, series_and, series_gt, scalar_mul_series, series_gt_scalar.
  apply list_eq; intros i.
  rewrite !lookup_zip_with, !lookup_map.
  destruct (f !! i); reflexivity.
Qed.

Lemma boolean_index_map (P : Row -> bool) (f : Frame) :
  boolean_index f (map P f) = List.filter P f.
Proof.
  induction f as [|r f IH]; simpl; [reflexivity|].
  rewrite IH. reflexivity.
Qed.

Lemma select_breakouts_filter (f : Frame) (vt pt : Q) :
  select_breakouts f vt pt = List.filter (is_breakout vt pt) f.
Proof.
  unfold select_breakouts. rewrite breakout_mask_rows. apply boolean_index_map.
Qed.

Lemma filter_sublist_of (P : Row -> bool) (f : Frame) :
  List.filter P f `sublist_of` f.
Proof.
  induction f as [|r f IH]; simpl.
  - constructor.
  - destruct (P r); constructor; exact IH.
Qed.

Lemma filter_sublist_mono (P1 P2 : Row -> bool) (f : Frame) :
  (forall r, P2 r = true -> P1 r = true) ->
  List.filter P2 f `sublist_of` List.filter P1 f.
Proof.
  intros Himp. induction f as [|r f IH]; simpl.
  - constructor.
  - destruct (P2 r) eqn:H2.
    + rewrite (Himp r H2). constructor. exact IH.
    + destruct (P1 r); [constructor|]; exact IH.
Qed.

Lemma elem_of_filter_bool (P : Row -> bool) (f : Frame) (r : Row) :
  r ∈ List.filter P f <-> r ∈ f /\ P r = true.
Proof. rewrite !list_elem_of_In. apply filter_In. Qed.

Lemma identify_breakout_days_run (s : store) (data : loc) (f : Frame) (vt pt : Q) :
  s !! data = Some f ->
  identify_breakout_days data vt pt s
    = Ok (length s) (s ++ [List.filter (is_breakout vt pt) f]).
Proof.
  intros Hf. unfold identify_breakout_days, mbind, M_bind, read, alloc.
  rewrite Hf, select_breakouts_filter. reflexivity.
Qed.

Lemma breakout_mask_rounded_rows (rnd : Q -> Q) (f : Frame) (vt pt : Q) :
  breakout_mask_rounded rnd f vt pt = map (is_breakout_rounded rnd vt pt) f.
Proof.
  unfold breakout_mask_rounded, series_and, series_gt, scalar_mul_series_rounded,
    series_gt_scalar.
  apply list_eq; intros i.
  rewrite !lookup_zip_with, !lookup_map.
  destruct (f !! i); reflexivity.
Qed.

Lemma identify_breakout_days_rounded_run (rnd : Q -> Q) (s : store) (data : loc)
    (f : Frame) (vt pt : Q) :
  s !! data = Some f ->
  identify_breakout_days_rounded rnd data vt pt s
    = Ok (length s) (s ++ [List.filter (is_breakout_rounded rnd vt pt) f]).
Proof.
  intros Hf. unfold identify_breakout_days_rounded, mbind, M_bind, read, alloc.
  rewrite Hf. unfold select_breakouts_rounded.
  rewrite breakout_mask_rounded_rows, boolean_index_map. reflexivity.
Qed.

(** Without rounding the selection is the one of [identify_breakout_days]. *)
Lemma identify_breakout_days_rounded_exact (s : store) (data : loc) (vt pt : Q) :
  identify_breakout_days_rounded (fun q => q) data vt pt s
    = identify_breakout_days data vt pt s.
Proof.
  unfold identify_breakout_days_rounded, identify_breakout_days, mbind, M_bind, read.
  destruct (s !! data) as [f|]; [|reflexivity].
  unfold select_breakouts_rounded, select_breakouts.
  rewrite breakout_mask_rounded_rows, breakout_mask_rows.
  f_equal. f_equal. apply map_ext. intros r.
  unfold is_breakout_rounded, is_breakout.
  destruct (avg_volume_20d r); reflexivity.
Qed.

(** C2: [identify_breakout_days] returns a new frame whose rows are
    exactly the rows of the data whose volume is greater than
    [volume_threshold / 100] times the 20-day average, the quotient and
    the product as float64 computes them, and whose daily percent change is
    greater than the price threshold, both strictly; the rows keep their
    labels and their order.  The statement holds for every rounding [rnd],
    the rounding to the nearest float64 included; where the two operations
    are exact the test is the inequality between the real numbers. *)
Theorem identify_breakout_days_selects (rnd : Q -> Q) (s : store) (data : loc)
    (f : Frame) (vt pt : Q) :
  s !! data = Some f ->
  exists out,
    identify_breakout_days_rounded rnd data vt pt s = Ok (length s) (s ++ [out]) /\
    out `sublist_of` f /\
    (forall r, r ∈ out <->
       r ∈ f /\
       (volume r >? fmul_rounded rnd (Fin (rnd (vt / 100)%Q)) (avg_volume_20d r))%F = true /\
       (daily_pct_change r >? Fin pt)%F = true) /\
    (forall r v a p,
       r ∈ f -> volume r = Fin v -> avg_volume_20d r = Fin a ->
       daily_pct_change r = Fin p ->
       (r ∈ out <-> (rnd (rnd (vt / 100) * a) < v)%Q /\ (pt < p)%Q)) /\
    (forall r v a p,
       r ∈ f -> volume r = Fin v -> avg_volume_20d r = Fin a ->
       daily_pct_change r = Fin p ->
       (rnd (rnd (vt / 100) * a) == vt / 100 * a)%Q ->
       (r ∈ out <-> (vt / 100 * a < v)%Q /\ (pt < p)%Q)).
Proof.
  intros Hf. exists (List.filter (is_breakout_rounded rnd vt pt) f).
  split; [apply identify_breakout_days_rounded_run; exact Hf|].
  split; [apply filter_sublist_of|].
  assert (Hchar : forall r, r ∈ List.filter (is_breakout_rounded rnd vt pt) f <->
     r ∈ f /\
     (volume r >? fmul_rounded rnd (Fin (rnd (vt / 100)%Q)) (avg_volume_20d r))%F = true /\
     (daily_pct_change r >? Fin pt)%F = true).
  { intros r. rewrite elem_of_filter_bool. unfold is_breakout_rounded.
    rewrite andb_true_iff. tauto. }
  assert (Hfin : forall r v a p,
     r ∈ f -> volume r = Fin v -> avg_volume_20d r = Fin a ->
     daily_pct_change r = Fin p ->
     (r ∈ List.filter (is_breakout_rounded rnd vt pt) f <->
      (rnd (rnd (vt / 100) * a) < v)%Q /\ (pt < p)%Q)).
  { intros r v a p Hin Hv Ha Hp. rewrite Hchar, Hv, Ha, Hp.
    simpl. rewrite !Qltb_lt. tauto. }
  split; [exact Hchar|]. split; [exact Hfin|].
  intros r v a p Hin Hv Ha Hp Hexact.
  rewrite (Hfin r v a p Hin Hv Ha Hp), Hexact. reflexivity.
Qed.

Lemma identify_breakout_days_selects_witness :
  [boundary_rows] !! 0%nat = Some boundary_rows /\
  exists out,
    identify_breakout_days_rounded round64 0 29 2 [boundary_rows]
      = Ok 1%nat [boundary_rows; out] /\
    (boundary_row 0 ∈ out) /\ (below_row 1 ∉ out).
Proof.
  split; [reflexivity|].
  destruct (identify_breakout_days_selects round64 [boundary_rows] 0 boundary_rows
              29 2 eq_refl)
    as (out & Hrun & _ & _ & Hfin & _).
  exists out. split; [exact Hrun|]. split.
  - apply (Hfin (boundary_row 0) 29%Q 100%Q 3%Q); try reflexivity.
    + unfold boundary_rows. apply list_elem_of_In. simpl. tauto.
    + split; vm_compute; reflexivity.
  - intros Hin.
    apply (Hfin (below_row 1) (289 # 10)%Q 100%Q 3%Q) in Hin; try reflexivity.
    + destruct Hin as [Hlt _]. vm_compute in Hlt. discriminate Hlt.
    + unfold boundary_rows. apply list_elem_of_In. simpl. tauto.
Defined.

(** On [boundary_rows] the rounding decides: the float64 product
    [0.29 * 100] is below 29, so the row whose volume is 29 is selected,
    while without rounding it is not. *)
Example rounding_decides_the_boundary :
  identify_breakout_days_rounded round64 0 29 2 [boundary_rows]
    = Ok 1%nat [boundary_rows; [boundary_row 0]] /\
  identify_breakout_days 0 29 2 [boundary_rows] = Ok 1%nat [boundary_rows; []].
Proof. split; vm_compute; reflexivity. Qed.

Lemma prepare_avg_undefined (obs : list Observation) (t : nat) (r : Row) :
  prepare obs !! t = Some r -> (t < 19)%nat -> avg_volume_20d r = NaN.
Proof.
  intros Hr Ht.
  assert (Hlen : (t < length obs)%nat).
  { rewrite <- prepare_length. eapply lookup_lt_Some; eauto. }
  destruct (lookup_lt_is_Some_2 obs t Hlen) as [o Ho].
  destruct (prepare_lookup obs t o Ho) as (a & p & Ha & _ & Hrow).
  rewrite Hrow in Hr. inversion Hr; subst r; simpl.
  destruct (rolling_mean_lookup window (map o_volume obs) t) as (v & Hv & Hprop).
  { unfold window; lia. }
  { rewrite length_map; exact Hlen. }
  rewrite Ha in Hv. inversion Hv; subst v. unfold window in Hprop.
  assert (Hc : (20 <=? S t)%nat = false) by (apply Nat.leb_gt; lia).
  rewrite Hc in Hprop. exact Hprop.
Qed.

Lemma is_breakout_defined (vt pt : Q) (r : Row) :
  is_breakout vt pt r = true ->
  avg_volume_20d r <> NaN /\ daily_pct_change r <> NaN.
Proof.
  unfold is_breakout. rewrite andb_true_iff. intros [Hv Hp].
  split; intros Hnan; rewrite Hnan in *.
  - rewrite fmul_nan_r, fgt_nan_r in Hv. discriminate.
  - rewrite fgt_nan_l in Hp. discriminate.
Qed.

(** C5: [identify_breakout_days] raises nothing and never selects a row
    whose 20-day average volume or daily percent change is NaN
    (undefined): the comparison with NaN is false.  On a prepared frame
    the selected rows therefore all have a label of at least 19, which
    excludes the first 19 rows and the row 0. *)
Theorem identify_breakout_days_fails_closed (s : store) (data : loc) (f : Frame) (vt pt : Q) :
  s !! data = Some f ->
  exists out,
    identify_breakout_days data vt pt s = Ok (length s) (s ++ [out]) /\
    (forall r, r ∈ out -> avg_volume_20d r <> NaN /\ daily_pct_change r <> NaN) /\
    (forall r, r ∈ f ->
       avg_volume_20d r = NaN \/ daily_pct_change r = NaN -> r ∉ out) /\
    (forall obs, f = prepare obs -> forall r, r ∈ out -> 19 <= label r).
Proof.
  intros Hf. exists (List.filter (is_breakout vt pt) f).
  split; [apply identify_breakout_days_run; exact Hf|].
  assert (Hdef : forall r, r ∈ List.filter (is_breakout vt pt) f ->
            avg_volume_20d r <> NaN /\ daily_pct_change r <> NaN).
  { intros r Hin. apply elem_of_filter_bool in Hin. destruct Hin as [_ Hb].
    eapply is_breakout_defined; eauto. }
  split; [exact Hdef|]. split.
  - intros r _ Hnan Hin. destruct (Hdef r Hin) as [Ha Hp]. tauto.
  - intros obs -> r Hin. destruct (Hdef r Hin) as [Ha _].
    apply elem_of_filter_bool in Hin. destruct Hin as [Hin _].
    apply list_elem_of_lookup in Hin. destruct Hin as [t Ht].
    rewrite (prepare_range_indexed obs t r Ht).
    destruct (Nat.lt_ge_cases t 19) as [Hlt|Hge]; [|lia].
    exfalso. apply Ha. eapply prepare_avg_undefined; eauto.
Qed.

Lemma identify_breakout_days_fails_closed_witness :
  [edge_rows] !! 0%nat = Some edge_rows /\
  exists out,
    identify_breakout_days 0 200 2 [edge_rows] = Ok 1%nat [edge_rows; out] /\
    (undefined_pct_row 0 ∉ out) /\ (undefined_avg_row 1 ∉ out).
Proof.
  split; [reflexivity|].
  destruct (identify_breakout_days_fails_closed [edge_rows] 0 edge_rows 200 2 eq_refl)
    as (out & Hrun & _ & Hnot & _).
  exists out. split; [exact Hrun|]. split.
  - apply Hnot; [|right; reflexivity].
    unfold edge_rows. apply list_elem_of_In. simpl. tauto.
  - apply Hnot; [|left; reflexivity].
    unfold edge_rows. apply list_elem_of_In. simpl. tauto.
Defined.

Lemma is_breakout_lower (vt p1 p2 : Q) (r : Row) :
  (p1 < p2)%Q -> is_breakout vt p2 r = true -> is_breakout vt p1 r = true.
Proof.
  intros Hlt. unfold is_breakout. rewrite !andb_true_iff. intros [Hv Hp].
  split; [exact Hv|]. eapply fgt_lower; eauto.
Qed.

(** C6: for a fixed frame and a fixed volume threshold, raising the price
    change threshold from [p1] to [p2 > p1] can only remove rows: every
    row selected with [p2] is selected with [p1], in the same order. *)
Theorem identify_breakout_days_monotone (s : store) (data : loc) (f : Frame)
    (vt p1 p2 : Q) :
  s !! data = Some f ->
  (p1 < p2)%Q ->
  exists out1 out2,
    identify_breakout_days data vt p1 s = Ok (length s) (s ++ [out1]) /\
    identify_breakout_days data vt p2 s = Ok (length s) (s ++ [out2]) /\
    out2 `sublist_of` out1 /\
    (forall r, r ∈ out2 -> r ∈ out1) /\
    (length out2 <= length out1)%nat.
Proof.
  intros Hf Hlt.
  exists (List.filter (is_breakout vt p1) f), (List.filter (is_breakout vt p2) f).
  split; [apply identify_breakout_days_run; exact Hf|].
  split; [apply identify_breakout_days_run; exact Hf|].
  assert (Hsub : List.filter (is_breakout vt p2) f
                   `sublist_of` List.filter (is_breakout vt p1) f).
  { apply filter_sublist_mono. intros r. apply is_breakout_lower. exact Hlt. }
  split; [exact Hsub|]. split.
  - intros r Hin. eapply elem_of_sublist; eauto.
  - apply sublist_length. exact Hsub.
Qed.

Lemma identify_breakout_days_monotone_witness :
  [two_surges] !! 0%nat = Some two_surges /\ (1 < (5 # 2))%Q /\
  exists out1 out2,
    identify_breakout_days 0 200 1 [two_surges] = Ok 1%nat [two_surges; out1] /\
    identify_breakout_days 0 200 (5 # 2) [two_surges] = Ok 1%nat [two_surges; out2] /\
    (length out2 <= length out1)%nat.
Proof.
  split; [reflexivity|]. split; [reflexivity|].
  destruct (identify_breakout_days_monotone [two_surges] 0 two_surges 200 1 (5 # 2)
              eq_refl eq_refl)
    as (out1 & out2 & Hrun1 & Hrun2 & _ & _ & Hlen).
  exists out1, out2. auto.
Defined.

(** ** The holding-return loop *)

Lemma holding_returns_loop_acc (d : Frame) (h : Z) (rows : list Row)
    (acc : list (option fval)) :
  holding_returns_loop d h rows acc =
    match holding_returns_loop d h rows [] with
    | inl e => inl e
    | inr l => inr (acc ++ l)
    end.
Proof.
  revert acc; induction rows as [|row rows IH]; intros acc; simpl.
  - rewrite app_nil_r. reflexivity.
  - destruct (holding_return_row d h row) as [e|v]; [reflexivity|].
    rewrite (IH (acc ++ [v])), (IH [v]).
    destruct (holding_returns_loop d h rows []); [reflexivity|].
    rewrite <- app_assoc. reflexivity.
Qed.

Lemma holding_returns_loop_cons (d : Frame) (h : Z) (row : Row) (rows : list Row) :
  holding_returns_loop d h (row :: rows) [] =
    match holding_return_row d h row with
    | inl e => inl e
    | inr v =>
        match holding_returns_loop d h rows [] with
        | inl e => inl e
        | inr l => inr (v :: l)
        end
    end.
Proof.
  simpl. destruct (holding_return_row d h row) as [e|v]; [reflexivity|].
  apply holding_returns_loop_acc.
Qed.

(** When the loop completes, [returns] has one element per row, each the
    value computed for that row. *)
Lemma holding_returns_loop_ok (d : Frame) (h : Z) (rows : list Row)
    (returns : list (option fval)) :
  holding_returns_loop d h rows [] = inr returns <->
  Forall2 (fun row v => holding_return_row d h row = inr v) rows returns.
Proof.
  revert returns; induction rows as [|row rows IH]; intros returns.
  - simpl. split.
    + intros H; inversion H. constructor.
    + intros H; inversion H. reflexivity.
  - rewrite holding_returns_loop_cons. split.
    + destruct (holding_return_row d h row) as [e|v] eqn:Hrow; [discriminate|].
      destruct (holding_returns_loop d h rows []) as [e|l] eqn:Hl; [discriminate|].
      intros H; inversion H; subst. constructor; [exact Hrow|].
      apply IH. reflexivity.
    + intros H; inversion H as [|? v ? l Hrow Hrest]; subst.
      rewrite Hrow. apply IH in Hrest. rewrite Hrest. reflexivity.
Qed.

(** When the loop raises, the exception comes from the body at some row. *)
Lemma holding_returns_loop_raise (d : Frame) (h : Z) (rows : list Row) (e : exn) :
  holding_returns_loop d h rows [] = inl e ->
  exists row, row ∈ rows /\ holding_return_row d h row = inl e.
Proof.
  induction rows as [|row rows IH]; [discriminate|].
  rewrite holding_returns_loop_cons.
  destruct (holding_return_row d h row) as [e'|v] eqn:Hrow.
  - intros H; inversion H; subst. exists row. split; [left|exact Hrow].
  - destruct (holding_returns_loop d h rows []) as [e'|l]; [|discriminate].
    intros H; inversion H; subst.
    destruct (IH eq_refl) as (row' & Hin & Hr). exists row'. split; [right; exact Hin|exact Hr].
Qed.

Lemma holding_returns_loop_total (d : Frame) (h : Z) (rows : list Row) :
  (forall row, row ∈ rows -> exists v, holding_return_row d h row = inr v) ->
  exists returns, holding_returns_loop d h rows [] = inr returns.
Proof.
  intros Hall. destruct (holding_returns_loop d h rows []) as [e|l] eqn:Hl.
  - apply holding_returns_loop_raise in Hl. destruct Hl as (row & Hin & Hr).
    destruct (Hall row Hin) as [v Hv]. congruence.
  - eauto.
Qed.

Lemma holding_return_row_raise (d : Frame) (h : Z) (row : Row) (e : exn) :
  holding_return_row d h row = inl e ->
  e = KeyError (label row + h) /\
  label row + h < Z.of_nat (length d) /\
  loc_close d (label row + h) = None.
Proof.
  unfold holding_return_row.
  destruct (label row + h <? Z.of_nat (length d)) eqn:Hlt; [|discriminate].
  destruct (loc_close d (label row + h)) eqn:Hc; [discriminate|].
  intros H; inversion H. apply Z.ltb_lt in Hlt. auto.
Qed.

(** ** Label lookup in a range-indexed frame *)

Lemma indexed_from_tail (i : nat) (r : Row) (f : Frame) :
  indexed_from i (r :: f) -> indexed_from (S i) f.
Proof.
  intros H t r' Hr'. rewrite (H (S t) r' Hr'). f_equal. lia.
Qed.

Lemma find_label_indexed (f : Frame) (i k : nat) :
  indexed_from i f -> (i <= k)%nat ->
  List.find (fun r => label r =? Z.of_nat k) f = f !! (k - i)%nat.
Proof.
  revert i; induction f as [|r f IH]; intros i Hidx Hle; [reflexivity|].
  simpl. rewrite (Hidx 0%nat r eq_refl), Nat.add_0_r.
  destruct (Z.of_nat i =? Z.of_nat k) eqn:Heq.
  - apply Z.eqb_eq in Heq. replace (k - i)%nat with 0%nat by lia. reflexivity.
  - apply Z.eqb_neq in Heq.
    rewrite (IH (S i) (indexed_from_tail _ _ _ Hidx)) by lia.
    replace (k - i)%nat with (S (k - S i)) by lia. reflexivity.
Qed.

Lemma find_label_absent (f : Frame) (k : Z) :
  (forall r, r ∈ f -> label r <> k) ->
  List.find (fun r => label r =? k) f = None.
Proof.
  induction f as [|r f IH]; intros Hne; [reflexivity|].
  simpl. destruct (label r =? k) eqn:Heq.
  - apply Z.eqb_eq in Heq. exfalso. apply (Hne r); [left|exact Heq].
  - apply IH. intros r' Hin. apply Hne. right. exact Hin.
Qed.

Lemma range_indexed_from (f : Frame) : range_indexed f <-> indexed_from 0 f.
Proof. unfold range_indexed, indexed_from. reflexivity. Qed.

Lemma loc_close_position (d : Frame) (k : Z) :
  range_indexed d -> 0 <= k ->
  loc_close d k = close <$> d !! Z.to_nat k.
Proof.
  intros Hidx Hk. unfold loc_close.
  pose proof (find_label_indexed d 0 (Z.to_nat k)) as Hfind.
  rewrite (Z2Nat.id k Hk), Nat.sub_0_r in Hfind.
  rewrite Hfind; [reflexivity| |lia].
  apply range_indexed_from. exact Hidx.
Qed.

Lemma loc_close_negative (d : Frame) (k : Z) :
  range_indexed d -> k < 0 -> loc_close d k = None.
Proof.
  intros Hidx Hk. unfold loc_close.
  rewrite find_label_absent; [reflexivity|].
  intros r Hin. apply list_elem_of_lookup in Hin. destruct Hin as [t Ht].
  rewrite (Hidx t r Ht). lia.
Qed.

(** The body of the loop on a range-indexed frame. *)
Lemma holding_return_row_inside (d : Frame) (h : Z) (row : Row) :
  range_indexed d -> 0 <= label row + h ->
  label row + h < Z.of_nat (length d) ->
  exists e, d !! Z.to_nat (label row + h) = Some e /\
    holding_return_row d h row = inr (Some (holding_return_of (close e) (close row))).
Proof.
  intros Hidx H0 Hlt.
  destruct (lookup_lt_is_Some_2 d (Z.to_nat (label row + h))) as [e He]; [lia|].
  exists e. split; [exact He|].
  unfold holding_return_row.
  assert (Hb : (label row + h <? Z.of_nat (length d)) = true) by (apply Z.ltb_lt; lia).
  rewrite Hb, (loc_close_position d _ Hidx H0), He. reflexivity.
Qed.

Lemma holding_return_row_outside (d : Frame) (h : Z) (row : Row) :
  Z.of_nat (length d) <= label row + h ->
  holding_return_row d h row = inr None.
Proof.
  intros Hge. unfold holding_return_row.
  assert (Hb : (label row + h <? Z.of_nat (length d)) = false) by (apply Z.ltb_ge; lia).
  rewrite Hb. reflexivity.
Qed.

Lemma holding_return_row_before (d : Frame) (h : Z) (row : Row) :
  range_indexed d -> label row + h < 0 ->
  holding_return_row d h row = inl (KeyError (label row + h)).
Proof.
  intros Hidx Hneg. unfold holding_return_row.
  assert (Hb : (label row + h <? Z.of_nat (length d)) = true) by (apply Z.ltb_lt; lia).
  rewrite Hb, (loc_close_negative d _ Hidx Hneg). reflexivity.
Qed.

(** ** The column assignment *)

Lemma set_holding_return_length (b : Frame) (returns : list (option fval)) :
  length returns = length b ->
  length (set_holding_return b returns) = length b.
Proof.
  intros Hlen. unfold set_holding_return. rewrite length_zip_with. lia.
Qed.

Lemma set_holding_return_lookup (b : Frame) (returns : list (option fval))
    (k : nat) (r : Row) (v : option fval) :
  b !! k = Some r -> returns !! k = Some v ->
  set_holding_return b returns !! k =
    Some (mkRow (label r) (date r) (close r) (volume r)
            (avg_volume_20d r) (daily_pct_change r) (Cell v)).
Proof.
  intros Hr Hv. unfold set_holding_return.
  rewrite lookup_zip_with, Hr. simpl. rewrite Hv. reflexivity.
Qed.

Lemma set_holding_return_base (b : Frame) (returns : list (option fval)) :
  length returns = length b ->
  map base (set_holding_return b returns) = map base b.
Proof.
  revert returns; induction b as [|r b IH]; intros [|v returns] Hlen;
    try discriminate; [reflexivity|].
  simpl. rewrite IH by (simpl in Hlen; lia). reflexivity.
Qed.

Lemma set_holding_return_twice (b : Frame) (returns : list (option fval)) :
  set_holding_return (set_holding_return b returns) returns
    = set_holding_return b returns.
Proof.
  revert returns; induction b as [|r b IH]; intros [|v returns]; try reflexivity.
  simpl. rewrite IH. reflexivity.
Qed.

Lemma holding_returns_loop_length (d : Frame) (h : Z) (rows : list Row)
    (returns : list (option fval)) :
  holding_returns_loop d h rows [] = inr returns -> length returns = length rows.
Proof.
  intros H. apply holding_returns_loop_ok in H.
  symmetry. eapply Forall2_length; eauto.
Qed.

(** ** Running calculate_holding_returns *)

Lemma calculate_holding_returns_run (s : store) (data breakout_days : loc)
    (d b : Frame) (h : Z) :
  s !! data = Some d -> s !! breakout_days = Some b ->
  calculate_holding_returns data breakout_days h s =
    match holding_returns_loop d h b [] with
    | inl e => Raise e s
    | inr returns => Ok breakout_days (<[breakout_days := set_holding_return b returns]> s)
    end.
Proof.
  intros Hd Hb.
  unfold calculate_holding_returns, mbind, M_bind, read, lift, write, mret, M_ret.
  rewrite Hd, Hb.
  destruct (holding_returns_loop d h b []); reflexivity.
Qed.

Lemma select_breakouts_of (d : Frame) (vt pt : Q) :
  range_indexed d -> breakouts_of d (List.filter (is_breakout vt pt) d).
Proof.
  intros Hidx r Hin. apply elem_of_filter_bool in Hin. destruct Hin as [Hin _].
  apply list_elem_of_lookup in Hin. destruct Hin as [t Ht].
  rewrite (Hidx t r Ht). split; [lia|].
  exists r. rewrite Nat2Z.id. auto.
Qed.

(** C1: on a range-indexed series and a breakout subset of it, with a
    positive holding period, [calculate_holding_returns] raises nothing and
    returns the breakout frame with one row per input row, in the same
    order and with the same label; the holding return of the row with label
    [i] is [(close[i+h] - close[i]) / close[i] * 100], both closes read
    from the full series at the absolute positions, when [i + h] is less
    than the length of the series, and [None] (undefined) otherwise. *)
Theorem calculate_holding_returns_spec (s : store) (data breakout_days : loc)
    (d b : Frame) (h : Z) :
  s !! data = Some d -> s !! breakout_days = Some b ->
  range_indexed d -> breakouts_of d b -> 0 < h ->
  exists b',
    calculate_holding_returns data breakout_days h s
      = Ok breakout_days (<[breakout_days := b']> s) /\
    length b' = length b /\
    forall (k : nat) (r : Row), b !! k = Some r ->
      exists r' ri,
        b' !! k = Some r' /\ base r' = base r /\
        d !! Z.to_nat (label r) = Some ri /\
        (label r + h < Z.of_nat (length d) ->
           exists re, d !! Z.to_nat (label r + h) = Some re /\
             holding_return r' =
               Cell (Some ((close re - close ri) / close ri * Fin 100)%F)) /\
        (Z.of_nat (length d) <= label r + h -> holding_return r' = Cell None).
Proof.
  intros Hd Hb Hidx Hsub Hh.
  assert (Hnonneg : forall r, r ∈ b -> 0 <= label r + h).
  { intros r Hin. destruct (Hsub r Hin) as [H0 _]. lia. }
  destruct (holding_returns_loop_total d h b) as [returns Hloop].
  { intros row Hin.
    destruct (Z.lt_ge_cases (label row + h) (Z.of_nat (length d))) as [Hlt|Hge].
    - destruct (holding_return_row_inside d h row Hidx (Hnonneg row Hin) Hlt)
        as (e & _ & Hrow). eauto.
    - rewrite (holding_return_row_outside d h row Hge). eauto. }
  exists (set_holding_return b returns).
  rewrite (calculate_holding_returns_run s data breakout_days d b h Hd Hb), Hloop.
  split; [reflexivity|].
  pose proof (holding_returns_loop_length d h b returns Hloop) as Hlen.
  split; [apply set_holding_return_length; exact Hlen|].
  intros k r Hr.
  assert (Hin : r ∈ b) by (apply list_elem_of_lookup; eauto).
  apply holding_returns_loop_ok in Hloop.
  destruct (Forall2_lookup_l _ _ _ _ _ Hloop Hr) as (v & Hv & Hrow).
  destruct (Hsub r Hin) as (_ & ri & Hri & Hbase).
  eexists; exists ri.
  split; [apply (set_holding_return_lookup b returns k r v Hr Hv)|].
  split; [reflexivity|]. split; [exact Hri|].
  assert (Hclose : close ri = close r).
  { unfold base in Hbase. inversion Hbase. reflexivity. }
  simpl. split.
  - intros Hlt.
    destruct (holding_return_row_inside d h r Hidx (Hnonneg r Hin) Hlt)
      as (re & Hre & Hrow').
    exists re. split; [exact Hre|].
    rewrite Hrow' in Hrow. inversion Hrow. rewrite Hclose. reflexivity.
  - intros Hge. rewrite (holding_return_row_outside d h r Hge) in Hrow.
    inversion Hrow. reflexivity.
Qed.

Lemma five_days_range_indexed : range_indexed five_days.
Proof.
  intros t r Hr. unfold five_days in Hr.
  do 5 (destruct t as [|t]; [inversion Hr; reflexivity|]). discriminate Hr.
Qed.

Lemma two_breakouts_of_five_days : breakouts_of five_days two_breakouts.
Proof.
  intros r Hin. apply list_elem_of_In in Hin. simpl in Hin.
  destruct Hin as [<-|[<-|[]]]; (split; [simpl; lia|eexists; split; reflexivity]).
Qed.

Lemma calculate_holding_returns_spec_witness :
  [five_days; two_breakouts] !! 0%nat = Some five_days /\
  [five_days; two_breakouts] !! 1%nat = Some two_breakouts /\
  range_indexed five_days /\ breakouts_of five_days two_breakouts /\ 0 < 2 /\
  exists b',
    calculate_holding_returns 0 1 2 [five_days; two_breakouts]
      = Ok 1%nat [five_days; b'] /\
    length b' = 2%nat /\
    (exists r', b' !! 0%nat = Some r' /\
       holding_return r' = Cell (Some ((Fin 132 - Fin 110) / Fin 110 * Fin 100)%F)) /\
    (exists r', b' !! 1%nat = Some r' /\ holding_return r' = Cell None).
Proof.
  split; [reflexivity|]. split; [reflexivity|].
  split; [exact five_days_range_indexed|].
  split; [exact two_breakouts_of_five_days|]. split; [lia|].
  destruct (calculate_holding_returns_spec [five_days; two_breakouts] 0 1
              five_days two_breakouts 2 eq_refl eq_refl
              five_days_range_indexed two_breakouts_of_five_days ltac:(lia))
    as (b' & Hrun & Hlen & Hrows).
  exists b'. split; [exact Hrun|]. split; [exact Hlen|]. split.
  - destruct (Hrows 0%nat (price_row 1 110) eq_refl)
      as (r' & ri & Hr' & _ & Hri & Hin & _).
    exists r'. split; [exact Hr'|].
    destruct (Hin ltac:(simpl; lia)) as (re & Hre & Hret).
    vm_compute in Hri, Hre. inversion Hri; inversion Hre; subst ri re.
    exact Hret.
  - destruct (Hrows 1%nat (price_row 4 140) eq_refl)
      as (r' & ri & Hr' & _ & _ & _ & Hout).
    exists r'. split; [exact Hr'|]. apply Hout. simpl. lia.
Defined.

(** ** What a call leaves in the store *)

Lemma map_base_length (f g : Frame) : map base f = map base g -> length f = length g.
Proof. intros H. apply (f_equal length) in H. rewrite !length_map in H. exact H. Qed.

(** The loop reads the label and the close of the rows only. *)
Lemma loc_close_base (d d' : Frame) (k : Z) :
  map base d' = map base d -> loc_close d' k = loc_close d k.
Proof.
  unfold loc_close.
  revert d'; induction d as [|r d IH]; intros [|r' d'] Hb; try discriminate;
    [reflexivity|].
  simpl in Hb. inversion Hb as [[Hl Hdt Hc Hv Ha Hp Hrest]].
  simpl. rewrite Hl. destruct (label r =? k).
  - simpl. rewrite Hc. reflexivity.
  - apply IH. exact Hrest.
Qed.

Lemma holding_return_row_base (d d' : Frame) (h : Z) (r r' : Row) :
  map base d' = map base d -> base r' = base r ->
  holding_return_row d' h r' = holding_return_row d h r.
Proof.
  intros Hd Hr. unfold holding_return_row.
  rewrite (map_base_length _ _ Hd), (loc_close_base d d' _ Hd).
  unfold base in Hr. inversion Hr as [[Hl Hdt Hc Hv Ha Hp]].
  reflexivity.
Qed.

Lemma holding_returns_loop_base (d d' : Frame) (h : Z) (b b' : Frame)
    (acc : list (option fval)) :
  map base d' = map base d -> map base b' = map base b ->
  holding_returns_loop d' h b' acc = holding_returns_loop d h b acc.
Proof.
  intros Hd. revert b' acc; induction b as [|r b IH]; intros [|r' b'] acc Hb;
    try discriminate; [reflexivity|].
  simpl in Hb. inversion Hb as [[Hl Hdt Hc Hv Ha Hp Hrest]].
  simpl. rewrite (holding_return_row_base d d' h r r' Hd).
  - destruct (holding_return_row d h r); [reflexivity|]. apply IH. exact Hrest.
  - unfold base. congruence.
Qed.

(** C10: a call of [calculate_holding_returns] on a series and a distinct
    breakout frame leaves the series as it was; the breakout frame keeps
    its rows, in order, with label, date, close, volume, 20-day average
    and daily change unchanged, and the only column set is the holding
    return.  A call that raises leaves the whole store as it was. *)
Theorem calculate_holding_returns_frame (s : store) (data breakout_days : loc)
    (d b : Frame) (h : Z) :
  s !! data = Some d -> s !! breakout_days = Some b -> data <> breakout_days ->
  match calculate_holding_returns data breakout_days h s with
  | Ok l s' =>
      l = breakout_days /\
      s' !! data = Some d /\
      exists b', s' !! breakout_days = Some b' /\
        map base b' = map base b /\
        (forall r', r' ∈ b' -> exists v, holding_return r' = Cell v)
  | Raise _ s' => s' = s
  end.
Proof.
  intros Hd Hb Hne.
  rewrite (calculate_holding_returns_run s data breakout_days d b h Hd Hb).
  destruct (holding_returns_loop d h b []) as [e|returns] eqn:Hloop; [reflexivity|].
  split; [reflexivity|].
  split; [rewrite list_lookup_insert_ne by auto; exact Hd|].
  exists (set_holding_return b returns).
  split.
  { apply list_lookup_insert_eq. eapply lookup_lt_Some; eauto. }
  pose proof (holding_returns_loop_length d h b returns Hloop) as Hlen.
  split; [apply set_holding_return_base; exact Hlen|].
  intros r' Hin. apply list_elem_of_lookup in Hin. destruct Hin as [k Hk].
  unfold set_holding_return in Hk. rewrite lookup_zip_with in Hk.
  destruct (b !! k) as [r|]; [|discriminate]. simpl in Hk.
  destruct (returns !! k) as [v|]; [|discriminate]. simpl in Hk.
  inversion Hk. simpl. eauto.
Qed.

Lemma calculate_holding_returns_frame_witness :
  [five_days; two_breakouts] !! 0%nat = Some five_days /\
  [five_days; two_breakouts] !! 1%nat = Some two_breakouts /\
  0%nat <> 1%nat /\
  exists s', calculate_holding_returns 0 1 2 [five_days; two_breakouts] = Ok 1%nat s' /\
    s' !! 0%nat = Some five_days /\
    exists b', s' !! 1%nat = Some b' /\ map base b' = map base two_breakouts.
Proof.
  split; [reflexivity|]. split; [reflexivity|]. split; [lia|].
  pose proof (calculate_holding_returns_frame [five_days; two_breakouts] 0 1
                five_days two_breakouts 2 eq_refl eq_refl ltac:(lia)) as Hframe.
  destruct (calculate_holding_returns 0 1 2 [five_days; two_breakouts])
    as [l s'|e s'] eqn:Hrun.
  - destruct Hframe as (-> & Hdata & b' & Hb' & Hbase & _).
    exists s'. split; [reflexivity|]. split; [exact Hdata|].
    exists b'. split; [exact Hb'|exact Hbase].
  - vm_compute in Hrun. discriminate Hrun.
Defined.

(** C9, as stated, fails: the call of [calculate_holding_returns] changes
    the breakout frame it was given. *)
Lemma calculate_holding_returns_mutates_argument :
  calculate_holding_returns 0 1 2 [five_days; two_breakouts]
    = Ok 1%nat [five_days; two_breakouts_measured] /\
  [five_days; two_breakouts_measured] !! 1%nat <> [five_days; two_breakouts] !! 1%nat.
Proof.
  split; [vm_compute; reflexivity|].
  vm_compute. intros H. discriminate H.
Qed.

(** C9, amended: [identify_breakout_days] leaves every frame of the store
    as it was and returns a new frame, so that running it again on the same
    arguments selects the same rows.  [calculate_holding_returns], on a
    breakout frame that has no holding-return column yet, leaves every
    frame other than the breakout frame as it was, assigns the
    holding-return column to the breakout frame in place and returns that
    same frame; a call that raises changes nothing. *)
Theorem stages_store_effect (s : store) (data breakout_days : loc)
    (d b : Frame) (vt pt : Q) (h : Z) :
  s !! data = Some d -> s !! breakout_days = Some b ->
  (forall r, r ∈ b -> holding_return r = NoColumn) ->
  (exists out,
     identify_breakout_days data vt pt s = Ok (length s) (s ++ [out]) /\
     (forall l f, s !! l = Some f -> (s ++ [out]) !! l = Some f) /\
     identify_breakout_days data vt pt (s ++ [out])
       = Ok (S (length s)) (s ++ [out; out])) /\
  match calculate_holding_returns data breakout_days h s with
  | Ok l s' =>
      l = breakout_days /\
      length s' = length s /\
      (forall l', l' <> breakout_days -> s' !! l' = s !! l') /\
      exists b',
        s' !! breakout_days = Some b' /\
        map base b' = map base b /\
        forall r', r' ∈ b' -> exists v, holding_return r' = Cell v
  | Raise _ s' => s' = s
  end.
Proof.
  intros Hd Hb Hfresh. split.
  { eexists. split; [apply identify_breakout_days_run; exact Hd|].
    split.
    - intros l f Hl. apply lookup_app_l_Some. exact Hl.
    - rewrite (identify_breakout_days_run _ data d vt pt)
        by (apply lookup_app_l_Some; exact Hd).
      rewrite length_app, <- app_assoc. simpl. rewrite Nat.add_1_r. reflexivity. }
  rewrite (calculate_holding_returns_run s data breakout_days d b h Hd Hb).
  destruct (holding_returns_loop d h b []) as [e|returns] eqn:Hloop; [reflexivity|].
  pose proof (holding_returns_loop_length d h b returns Hloop) as Hlen.
  pose proof (lookup_lt_Some _ _ _ Hb) as Hbound.
  split; [reflexivity|].
  split; [apply length_insert|].
  split; [intros l' Hne; apply list_lookup_insert_ne; auto|].
  exists (set_holding_return b returns).
  split; [apply list_lookup_insert_eq; exact Hbound|].
  split; [apply set_holding_return_base; exact Hlen|].
  intros r' Hin. apply list_elem_of_lookup in Hin. destruct Hin as [k Hk].
  unfold set_holding_return in Hk. rewrite lookup_zip_with in Hk.
  destruct (b !! k) as [r|]; [|discriminate]. simpl in Hk.
  destruct (returns !! k) as [v|]; [|discriminate]. simpl in Hk.
  inversion Hk. simpl. eauto.
Qed.

Lemma two_breakouts_without_column :
  forall r, r ∈ two_breakouts -> holding_return r = NoColumn.
Proof.
  intros r Hin. apply list_elem_of_In in Hin. simpl in Hin.
  destruct Hin as [<-|[<-|[]]]; reflexivity.
Qed.

Lemma stages_store_effect_witness :
  [five_days; two_breakouts] !! 0%nat = Some five_days /\
  [five_days; two_breakouts] !! 1%nat = Some two_breakouts /\
  (forall r, r ∈ two_breakouts -> holding_return r = NoColumn) /\
  exists b',
    [five_days; two_breakouts_measured] !! 1%nat = Some b' /\
    map base b' = map base two_breakouts.
Proof.
  split; [reflexivity|]. split; [reflexivity|].
  split; [exact two_breakouts_without_column|].
  pose proof (stages_store_effect [five_days; two_breakouts] 0 1
                five_days two_breakouts 200 2 2 eq_refl eq_refl
                two_breakouts_without_column) as [_ Hcall].
  assert (Hrun : calculate_holding_returns 0 1 2 [five_days; two_breakouts]
                 = Ok 1%nat [five_days; two_breakouts_measured])
    by (vm_compute; reflexivity).
  rewrite Hrun in Hcall. destruct Hcall as (_ & _ & _ & b' & Hb' & Hbase & _).
  exists b'. split; [exact Hb'|exact Hbase].
Defined.

(** ** Parameters out of range *)

(** On a range-indexed series the only exception of the loop is the
    [KeyError] of a negative exit index. *)
Lemma holding_returns_loop_raise_negative (d : Frame) (h : Z) (b : Frame) (e : exn) :
  range_indexed d ->
  holding_returns_loop d h b [] = inl e ->
  exists r, r ∈ b /\ label r + h < 0 /\ e = KeyError (label r + h).
Proof.
  intros Hidx Hloop.
  destruct (holding_returns_loop_raise d h b e Hloop) as (r & Hin & Hrow).
  destruct (holding_return_row_raise d h r e Hrow) as (He & Hlt & Hnone).
  exists r. split; [exact Hin|]. split; [|exact He].
  destruct (Z.lt_ge_cases (label r + h) 0) as [Hneg|Hpos]; [exact Hneg|].
  rewrite (loc_close_position d _ Hidx Hpos) in Hnone.
  destruct (lookup_lt_is_Some_2 d (Z.to_nat (label r + h))) as [x Hx]; [lia|].
  rewrite Hx in Hnone. discriminate Hnone.
Qed.

Lemma holding_returns_loop_negative_raises (d : Frame) (h : Z) (b : Frame) (r : Row) :
  range_indexed d -> r ∈ b -> label r + h < 0 ->
  exists e, holding_returns_loop d h b [] = inl e.
Proof.
  intros Hidx Hin Hneg.
  destruct (holding_returns_loop d h b []) as [e|returns] eqn:Hloop; [eauto|].
  apply holding_returns_loop_ok in Hloop.
  apply list_elem_of_lookup in Hin. destruct Hin as [k Hk].
  destruct (Forall2_lookup_l _ _ _ _ _ Hloop Hk) as (v & _ & Hrow).
  rewrite (holding_return_row_before d h r Hidx Hneg) in Hrow. discriminate Hrow.
Qed.

(** C7, as stated, fails: with a volume threshold of 0 and with a holding
    period of 0 or -1 the functions return a result, and so does the
    whole pipeline on the series with one surge. *)
Lemma non_positive_parameters_accepted :
  identify_breakout_days 0 0 2 [three_rows] = Ok 1%nat [three_rows; [surge_row 1]] /\
  calculate_holding_returns 0 1 0 [three_rows; [surge_row 1]]
    = Ok 1%nat [three_rows; surge_after 0] /\
  calculate_holding_returns 0 1 (-1) [three_rows; [surge_row 1]]
    = Ok 1%nat [three_rows; surge_after (-1)] /\
  match analyze (Some surge_series) 0 2 0 [] with
  | Ok (Some l) st =>
      map label <$> st !! l = Some [20] /\
      map holding_return <$> st !! l
        = Some [Cell (Some (holding_return_of (Fin 103) (Fin 103)))]
  | _ => False
  end.
Proof.
  split; [vm_compute; reflexivity|]. split; [vm_compute; reflexivity|].
  split; [vm_compute; reflexivity|].
  vm_compute. split; reflexivity.
Qed.

(** C7, amended: the functions do not validate their parameters and never
    raise [InvalidParameter].  [identify_breakout_days] raises nothing
    whatever the thresholds, a non-positive volume threshold included,
    and selects with the threshold it was given.  On a range-indexed
    series and a breakout frame without a holding-return column,
    [calculate_holding_returns] with any holding period, a non-positive
    one included, computes for every row the return
    [(close[i+h] - close[i]) / close[i] * 100] at the exit index
    [i + h = label + holding_period], or [None] past the end of the series,
    when every exit index is non-negative; when a row has a negative exit
    index it raises the [KeyError] of such an index and leaves the store
    as it was. *)
Theorem no_parameter_validation (rnd : Q -> Q) (s : store) (data breakout_days : loc)
    (d b : Frame) (vt pt : Q) (h : Z) :
  s !! data = Some d -> s !! breakout_days = Some b -> range_indexed d ->
  (forall r, r ∈ b -> holding_return r = NoColumn) ->
  (exists out,
     identify_breakout_days_rounded rnd data vt pt s = Ok (length s) (s ++ [out]) /\
     forall r, r ∈ out <->
       r ∈ d /\
       (volume r >? fmul_rounded rnd (Fin (rnd (vt / 100)%Q)) (avg_volume_20d r))%F = true /\
       (daily_pct_change r >? Fin pt)%F = true) /\
  ((forall r, r ∈ b -> 0 <= label r + h) ->
     exists b',
       calculate_holding_returns data breakout_days h s
         = Ok breakout_days (<[breakout_days := b']> s) /\
       length b' = length b /\
       forall (k : nat) (r : Row), b !! k = Some r ->
         exists r',
           b' !! k = Some r' /\ base r' = base r /\
           (label r + h < Z.of_nat (length d) ->
              exists e, d !! Z.to_nat (label r + h) = Some e /\
                holding_return r' =
                  Cell (Some ((close e - close r) / close r * Fin 100)%F)) /\
           (Z.of_nat (length d) <= label r + h -> holding_return r' = Cell None)) /\
  ((exists r, r ∈ b /\ label r + h < 0) ->
     exists r, r ∈ b /\ label r + h < 0 /\
       calculate_holding_returns data breakout_days h s
         = Raise (KeyError (label r + h)) s) /\
  (forall s', calculate_holding_returns data breakout_days h s
                <> Raise InvalidParameter s').
Proof.
  intros Hd Hb Hidx Hfresh.
  pose proof (calculate_holding_returns_run s data breakout_days d b h Hd Hb) as Hrun.
  split; [|split; [|split]].
  - eexists. split; [apply identify_breakout_days_rounded_run; exact Hd|].
    intros r. rewrite elem_of_filter_bool. unfold is_breakout_rounded.
    rewrite andb_true_iff. tauto.
  - intros Hnonneg.
    destruct (holding_returns_loop d h b []) as [e|returns] eqn:Hloop.
    + destruct (holding_returns_loop_raise_negative d h b e Hidx Hloop)
        as (r & Hin & Hneg & _).
      specialize (Hnonneg r Hin). lia.
    + exists (set_holding_return b returns). split; [exact Hrun|].
      pose proof (holding_returns_loop_length d h b returns Hloop) as Hlen.
      split; [apply set_holding_return_length; exact Hlen|].
      intros k r Hr.
      assert (Hin : r ∈ b) by (apply list_elem_of_lookup; eauto).
      apply holding_returns_loop_ok in Hloop.
      destruct (Forall2_lookup_l _ _ _ _ _ Hloop Hr) as (v & Hv & Hrow).
      eexists.
      split; [apply (set_holding_return_lookup b returns k r v Hr Hv)|].
      split; [reflexivity|]. simpl. split.
      * intros Hlt.
        destruct (holding_return_row_inside d h r Hidx (Hnonneg r Hin) Hlt)
          as (e & He & Hrow').
        exists e. split; [exact He|].
        rewrite Hrow' in Hrow. inversion Hrow. reflexivity.
      * intros Hge. rewrite (holding_return_row_outside d h r Hge) in Hrow.
        inversion Hrow. reflexivity.
  - intros (r & Hin & Hneg).
    destruct (holding_returns_loop_negative_raises d h b r Hidx Hin Hneg) as [e Hloop].
    rewrite Hloop in Hrun.
    destruct (holding_returns_loop_raise_negative d h b e Hidx Hloop)
      as (r' & Hin' & Hneg' & ->).
    exists r'. split; [exact Hin'|]. split; [exact Hneg'|exact Hrun].
  - intros s' Hcall. rewrite Hrun in Hcall.
    destruct (holding_returns_loop d h b []) as [e|returns] eqn:Hloop; [|discriminate].
    inversion Hcall; subst.
    destruct (holding_returns_loop_raise_negative d h b _ Hidx Hloop)
      as (r & _ & _ & He). discriminate He.
Qed.

Lemma three_rows_range_indexed : range_indexed three_rows.
Proof.
  intros t r Hr. unfold three_rows in Hr.
  do 3 (destruct t as [|t]; [inversion Hr; reflexivity|]). discriminate Hr.
Qed.

Lemma surge_row_without_column :
  forall r, r ∈ [surge_row 1] -> holding_return r = NoColumn.
Proof.
  intros r Hin. apply list_elem_of_In in Hin. simpl in Hin.
  destruct Hin as [<-|[]]. reflexivity.
Qed.

Lemma no_parameter_validation_witness :
  [three_rows; [surge_row 1]] !! 0%nat = Some three_rows /\
  [three_rows; [surge_row 1]] !! 1%nat = Some [surge_row 1] /\
  range_indexed three_rows /\
  (forall r, r ∈ [surge_row 1] -> holding_return r = NoColumn) /\
  calculate_holding_returns 0 1 (-2) [three_rows; [surge_row 1]]
    = Raise (KeyError (-1)) [three_rows; [surge_row 1]] /\
  exists b',
    calculate_holding_returns 0 1 (-1) [three_rows; [surge_row 1]]
      = Ok 1%nat [three_rows; b'] /\
    map holding_return b'
      = [Cell (Some ((Fin 100 - Fin 103) / Fin 103 * Fin 100)%F)].
Proof.
  split; [reflexivity|]. split; [reflexivity|].
  split; [exact three_rows_range_indexed|].
  split; [exact surge_row_without_column|].
  split.
  - destruct (no_parameter_validation round64 [three_rows; [surge_row 1]] 0 1
                three_rows [surge_row 1] 0 2 (-2) eq_refl eq_refl
                three_rows_range_indexed surge_row_without_column)
      as (_ & _ & Hraise & _).
    destruct Hraise as (r & Hin & _ & Hrun).
    { exists (surge_row 1). split; [left|simpl; lia]. }
    apply list_elem_of_In in Hin. simpl in Hin. destruct Hin as [<-|[]].
    exact Hrun.
  - destruct (no_parameter_validation round64 [three_rows; [surge_row 1]] 0 1
                three_rows [surge_row 1] 0 2 (-1) eq_refl eq_refl
                three_rows_range_indexed surge_row_without_column)
      as (_ & Hok & _ & _).
    destruct Hok as (b' & Hrun & Hlen & Hrows).
    { intros r Hin. apply list_elem_of_In in Hin. simpl in Hin.
      destruct Hin as [<-|[]]. simpl. lia. }
    exists b'. split; [exact Hrun|].
    destruct (Hrows 0%nat (surge_row 1) eq_refl) as (r' & Hr' & _ & Hin & _).
    destruct (Hin ltac:(simpl; lia)) as (e & He & Hret).
    vm_compute in He. inversion He; subst e.
    destruct b' as [|x [|y rest]]; try discriminate Hlen.
    simpl in Hr'. inversion Hr'; subst x. simpl. rewrite Hret. reflexivity.
Defined.

(** ** The empty series *)

(** C8: on the empty series nothing raises: the prepared frame is empty,
    the selection is empty, and the pipeline ends with an empty breakout
    frame, whatever the thresholds and the holding period. *)
Theorem empty_series_pipeline (s : store) (vt pt : Q) (h : Z) :
  prepare [] = [] /\
  select_breakouts [] vt pt = [] /\
  fetch_and_prepare_data (Some []) s = Ok (Some (length s)) (s ++ [[]]) /\
  identify_breakout_days (length s) vt pt (s ++ [[]])
    = Ok (S (length s)) (s ++ [[]; []]) /\
  calculate_holding_returns (length s) (S (length s)) h (s ++ [[]; []])
    = Ok (S (length s)) (s ++ [[]; []]) /\
  analyze (Some []) vt pt h s = Ok (Some (S (length s))) (s ++ [[]; []]).
Proof.
  assert (Hdata1 : (s ++ [[]]) !! length s = Some ([] : Frame)).
  { apply list_lookup_middle. reflexivity. }
  assert (Hdata2 : (s ++ [[]; []]) !! length s = Some ([] : Frame)).
  { apply list_lookup_middle. reflexivity. }
  assert (Hbd : (s ++ [[]; []]) !! S (length s) = Some ([] : Frame)).
  { change (s ++ [[]; []]) with (s ++ [[]] ++ [[]]). rewrite app_assoc.
    apply list_lookup_middle. rewrite length_app. simpl. lia. }
  assert (Hid : identify_breakout_days (length s) vt pt (s ++ [[]])
                = Ok (S (length s)) (s ++ [[]; []])).
  { rewrite (identify_breakout_days_run _ _ [] vt pt Hdata1).
    rewrite length_app, <- app_assoc. simpl. rewrite Nat.add_1_r. reflexivity. }
  assert (Hcalc : calculate_holding_returns (length s) (S (length s)) h (s ++ [[]; []])
                  = Ok (S (length s)) (s ++ [[]; []])).
  { rewrite (calculate_holding_returns_run _ _ _ [] [] h Hdata2 Hbd). simpl.
    rewrite list_insert_id by exact Hbd. reflexivity. }
  split; [reflexivity|]. split; [reflexivity|]. split; [reflexivity|].
  split; [exact Hid|]. split; [exact Hcalc|].
  unfold analyze, fetch_and_prepare_data, mbind, M_bind, alloc, mret, M_ret.
  change (prepare []) with ([] : Frame).
  rewrite Hid, Hcalc. reflexivity.
Qed.

(** ** The pipeline *)

(** The frames the pipeline works on satisfy the assumptions made on the
    series and on the breakout subset. *)
Lemma pipeline_frames (obs : list Observation) (vt pt : Q) :
  range_indexed (prepare obs) /\
  breakouts_of (prepare obs) (select_breakouts (prepare obs) vt pt).
Proof.
  split; [apply prepare_range_indexed|].
  rewrite select_breakouts_filter. apply select_breakouts_of.
  apply prepare_range_indexed.
Qed.

(** [analyze] allocates the prepared frame and the selection, in this
    order, and the loop of [calculate_holding_returns] decides the rest. *)
Lemma analyze_run (obs : list Observation) (vt pt : Q) (h : Z) (s : store) :
  analyze (Some obs) vt pt h s =
    match holding_returns_loop (prepare obs) h
            (select_breakouts (prepare obs) vt pt) [] with
    | inl e => Raise e (s ++ [prepare obs; select_breakouts (prepare obs) vt pt])
    | inr returns =>
        Ok (Some (S (length s)))
           (s ++ [prepare obs;
                  set_holding_return (select_breakouts (prepare obs) vt pt) returns])
    end.
Proof.
  set (d := prepare obs). set (b := select_breakouts d vt pt).
  assert (Hd1 : (s ++ [d]) !! length s = Some d).
  { apply list_lookup_middle. reflexivity. }
  assert (Hd2 : (s ++ [d; b]) !! length s = Some d).
  { apply list_lookup_middle. reflexivity. }
  assert (Hb : (s ++ [d; b]) !! S (length s) = Some b).
  { change (s ++ [d; b]) with (s ++ [d] ++ [b]). rewrite app_assoc.
    apply list_lookup_middle. rewrite length_app. simpl. lia. }
  assert (Hid : identify_breakout_days (length s) vt pt (s ++ [d])
                = Ok (S (length s)) (s ++ [d; b])).
  { rewrite (identify_breakout_days_run _ _ d vt pt Hd1).
    unfold b. rewrite select_breakouts_filter.
    rewrite length_app, <- app_assoc. simpl. rewrite Nat.add_1_r. reflexivity. }
  unfold analyze, fetch_and_prepare_data, mbind, M_bind, alloc, mret, M_ret.
  fold d. rewrite Hid.
  rewrite (calculate_holding_returns_run _ _ _ d b h Hd2 Hb).
  destruct (holding_returns_loop d h b []) as [e|returns]; [reflexivity|].
  replace (S (length s)) with (length s + 1)%nat by lia.
  rewrite (insert_app_r s [d; b] 1). reflexivity.
Qed.

(** With a positive holding period the pipeline raises nothing, and the
    prepared frame is in the final store as it was built. *)
Lemma analyze_positive_period (obs : list Observation) (vt pt : Q) (h : Z) (s : store) :
  0 < h ->
  exists b',
    analyze (Some obs) vt pt h s = Ok (Some (S (length s))) (s ++ [prepare obs; b']) /\
    map base b' = map base (select_breakouts (prepare obs) vt pt).
Proof.
  intros Hh. rewrite analyze_run.
  destruct (pipeline_frames obs vt pt) as [Hidx Hsub].
  destruct (holding_returns_loop (prepare obs) h (select_breakouts (prepare obs) vt pt) [])
    as [e|returns] eqn:Hloop.
  - destruct (holding_returns_loop_raise_negative _ _ _ _ Hidx Hloop)
      as (r & Hin & Hneg & _).
    destruct (Hsub r Hin) as [H0 _]. lia.
  - eexists. split; [reflexivity|].
    apply set_holding_return_base.
    eapply holding_returns_loop_length; eauto.
Qed.

(** ** The pipeline on the series with one surge *)

(** With thresholds 200 and 2 and a holding period of 3, the pipeline
    finds the single breakout of day 20 and measures its return from the
    closes of days 20 and 23. *)
Example surge_series_pipeline :
  match analyze (Some surge_series) 200 2 3 [] with
  | Ok (Some l) st =>
      map label <$> st !! l = Some [20] /\
      map holding_return <$> st !! l
        = Some [Cell (Some (holding_return_of (Fin 103) (Fin 103)))] /\
      st !! 0%nat = Some (prepare surge_series)
  | _ => False
  end.
Proof. vm_compute. repeat split; reflexivity. Qed.

(** * Further properties of the three functions *)

(** ** The prepared frame and its input *)

(** X1: the frame that [fetch_and_prepare_data] builds has one row per
    downloaded observation, in the same order; the row at position [t] has
    the label [t] and the date, close and volume of the observation [t],
    and no holding-return column. *)
Theorem prepare_keeps_observations (obs : list Observation) (t : nat) (o : Observation) :
  obs !! t = Some o ->
  length (prepare obs) = length obs /\
  exists r, prepare obs !! t = Some r /\
    label r = Z.of_nat t /\
    date r = o_date o /\
    close r = Fin (o_close o) /\
    volume r = Fin (o_volume o) /\
    holding_return r = NoColumn.
Proof.
  intros Ho. split; [apply prepare_length|].
  destruct (prepare_lookup obs t o Ho) as (a & p & _ & _ & Hrow).
  eexists. split; [exact Hrow|]. simpl. repeat split; reflexivity.
Qed.

Lemma prepare_keeps_observations_witness :
  map rising_day (seq 0 3) !! 2%nat = Some (rising_day 2) /\
  length (prepare (map rising_day (seq 0 3))) = 3%nat /\
  exists r, prepare (map rising_day (seq 0 3)) !! 2%nat = Some r /\
    label r = 2 /\ close r = Fin (o_close (rising_day 2)).
Proof.
  split; [reflexivity|].
  destruct (prepare_keeps_observations (map rising_day (seq 0 3)) 2 (rising_day 2) eq_refl)
    as (Hlen & r & Hr & Hl & _ & Hc & _).
  split; [exact Hlen|]. exists r. auto.
Defined.

(** The rolling mean and the percent change at a position read no later
    position. *)
Lemma roll_mean_loop_app (w : nat) (l l' : list Q) :
  forall (todo todo' i : nat) (s : Q) (n t : nat),
    (t < todo)%nat -> (t < todo')%nat -> (i + t < length l)%nat ->
    roll_mean_loop w (l ++ l') todo i s n !! t = roll_mean_loop w l todo' i s n !! t.
Proof.
  intros todo; induction todo as [|todo IH]; intros todo' i s n t Ht Ht' Hlen; [lia|].
  destruct todo' as [|todo']; [lia|].
  assert (Hi : nth i (l ++ l') 0%Q = nth i l 0%Q) by (apply app_nth1; lia).
  assert (Hiw : nth (i - w) (l ++ l') 0%Q = nth (i - w) l 0%Q) by (apply app_nth1; lia).
  simpl. rewrite Hi, Hiw.
  destruct (w <=? i)%nat; (destruct t as [|t]; [reflexivity|]);
    simpl; apply IH; lia.
Qed.

Lemma rolling_mean_app (w : nat) (l l' : list Q) (t : nat) :
  (t < length l)%nat ->
  rolling_mean w (l ++ l') !! t = rolling_mean w l !! t.
Proof.
  intros Ht. unfold rolling_mean. apply roll_mean_loop_app.
  - rewrite length_app. lia.
  - exact Ht.
  - simpl. exact Ht.
Qed.

Lemma pct_change_app (xs ys : list fval) (t : nat) :
  (t < length xs)%nat ->
  pct_change (xs ++ ys) !! t = pct_change xs !! t.
Proof.
  intros Ht. unfold pct_change. rewrite !lookup_zip_with.
  rewrite lookup_app_l by exact Ht.
  rewrite !shift1_lookup by (try rewrite length_app; lia).
  destruct t as [|t]; [reflexivity|].
  simpl. rewrite lookup_app_l by lia. reflexivity.
Qed.

(** X2: the computed columns never read later rows: the frame prepared
    from a series extended by later observations begins with the frame
    prepared from the series itself. *)
Theorem prepare_prefix (obs later : list Observation) :
  take (length obs) (prepare (obs ++ later)) = prepare obs.
Proof.
  apply list_eq; intros t.
  destruct (Nat.lt_ge_cases t (length obs)) as [Hlt|Hge].
  - rewrite lookup_take_lt by exact Hlt.
    destruct (lookup_lt_is_Some_2 obs t Hlt) as [o Ho].
    assert (Ho' : (obs ++ later) !! t = Some o).
    { rewrite lookup_app_l by exact Hlt. exact Ho. }
    destruct (prepare_lookup obs t o Ho) as (a & p & Ha & Hp & Hrow).
    destruct (prepare_lookup (obs ++ later) t o Ho') as (a' & p' & Ha' & Hp' & Hrow').
    rewrite Hrow, Hrow'.
    rewrite map_app, rolling_mean_app in Ha' by (rewrite length_map; exact Hlt).
    unfold closes in Hp', Hp. rewrite map_app, pct_change_app in Hp'
      by (rewrite length_map; exact Hlt).
    congruence.
  - rewrite lookup_take_ge by exact Hge.
    symmetry. apply lookup_ge_None_2. rewrite prepare_length. exact Hge.
Qed.

(** ** Selections *)

Lemma filter_none (P : Row -> bool) (f : Frame) :
  (forall r, r ∈ f -> P r = false) -> List.filter P f = [].
Proof.
  induction f as [|r f IH]; intros Hall; [reflexivity|].
  simpl. rewrite (Hall r) by left. apply IH. intros r' Hin. apply Hall. right. exact Hin.
Qed.

Lemma filter_filter_implied (P1 P2 : Row -> bool) (f : Frame) :
  (forall r, P2 r = true -> P1 r = true) ->
  List.filter P2 (List.filter P1 f) = List.filter P2 f.
Proof.
  intros Himp. induction f as [|r f IH]; [reflexivity|].
  simpl. destruct (P1 r) eqn:H1; simpl.
  - rewrite IH. reflexivity.
  - destruct (P2 r) eqn:H2; [|exact IH].
    rewrite (Himp r H2) in H1. discriminate H1.
Qed.

(** X3: a series of fewer than 20 observations has no breakout day,
    whatever the thresholds: the selection on its prepared frame is empty
    and the pipeline ends with an empty breakout frame, for every holding
    period. *)
Theorem short_series_no_breakout (obs : list Observation) (vt pt : Q) (h : Z) (s : store) :
  (length obs < 20)%nat ->
  select_breakouts (prepare obs) vt pt = [] /\
  analyze (Some obs) vt pt h s = Ok (Some (S (length s))) (s ++ [prepare obs; []]).
Proof.
  intros Hshort.
  assert (Hsel : select_breakouts (prepare obs) vt pt = []).
  { rewrite select_breakouts_filter. apply filter_none.
    intros r Hin. apply list_elem_of_lookup in Hin. destruct Hin as [t Ht].
    assert (Hlt : (t < 19)%nat).
    { apply lookup_lt_Some in Ht. rewrite prepare_length in Ht. lia. }
    unfold is_breakout.
    rewrite (prepare_avg_undefined obs t r Ht Hlt), fmul_nan_r, fgt_nan_r.
    reflexivity. }
  split; [exact Hsel|].
  rewrite analyze_run, Hsel. reflexivity.
Qed.

Lemma short_series_no_breakout_witness :
  (length (map flat_day (seq 0 5)) < 20)%nat /\
  analyze (Some (map flat_day (seq 0 5))) 0 (-100) 1 []
    = Ok (Some 1%nat) [prepare (map flat_day (seq 0 5)); []].
Proof.
  split; [simpl; lia|].
  destruct (short_series_no_breakout (map flat_day (seq 0 5)) 0 (-100) 1 [])
    as [_ Hrun]; [simpl; lia|].
  exact Hrun.
Defined.

Lemma fgt_lower_le (x : fval) (p1 p2 : Q) :
  (p1 <= p2)%Q -> (x >? Fin p2)%F = true -> (x >? Fin p1)%F = true.
Proof.
  intros Hle. destruct x; simpl; auto.
  rewrite !Qltb_lt. intros H. eapply Qle_lt_trans; eauto.
Qed.

(** X4: selecting again, with the same volume threshold and a price
    threshold at least as high, from a frame that [identify_breakout_days]
    returned gives the rows that the second pair of thresholds selects from
    the data; with the same thresholds the selection is returned as it
    is. *)
Theorem identify_breakout_days_again (s : store) (data : loc) (f : Frame)
    (vt p1 p2 : Q) :
  s !! data = Some f ->
  (p1 <= p2)%Q ->
  exists out1 out2,
    identify_breakout_days data vt p1 s = Ok (length s) (s ++ [out1]) /\
    identify_breakout_days (length s) vt p2 (s ++ [out1])
      = Ok (S (length s)) (s ++ [out1; out2]) /\
    identify_breakout_days data vt p2 s = Ok (length s) (s ++ [out2]) /\
    (p1 = p2 -> out2 = out1).
Proof.
  intros Hf Hle.
  exists (List.filter (is_breakout vt p1) f), (List.filter (is_breakout vt p2) f).
  split; [apply identify_breakout_days_run; exact Hf|].
  assert (Himp : forall q1 q2, (q1 <= q2)%Q ->
            forall r, is_breakout vt q2 r = true -> is_breakout vt q1 r = true).
  { intros q1 q2 Hq r. unfold is_breakout. rewrite !andb_true_iff. intros [Hv Hp].
    split; [exact Hv|]. eapply fgt_lower_le; eauto. }
  split; [|split].
  - rewrite (identify_breakout_days_run (s ++ [List.filter (is_breakout vt p1) f])
               (length s) (List.filter (is_breakout vt p1) f) vt p2).
    + rewrite (filter_filter_implied _ _ f (Himp p1 p2 Hle)).
      rewrite length_app, <- app_assoc. simpl. rewrite Nat.add_1_r. reflexivity.
    + apply list_lookup_middle. reflexivity.
  - apply identify_breakout_days_run. exact Hf.
  - intros ->. reflexivity.
Qed.

Lemma identify_breakout_days_again_witness :
  [two_surges] !! 0%nat = Some two_surges /\ (1 <= (5 # 2))%Q /\
  exists out1 out2,
    identify_breakout_days 0 200 1 [two_surges] = Ok 1%nat [two_surges; out1] /\
    identify_breakout_days 1 200 (5 # 2) [two_surges; out1]
      = Ok 2%nat [two_surges; out1; out2] /\
    identify_breakout_days 0 200 (5 # 2) [two_surges] = Ok 1%nat [two_surges; out2].
Proof.
  split; [reflexivity|]. split; [discriminate|].
  destruct (identify_breakout_days_again [two_surges] 0 two_surges 200 1 (5 # 2)
              eq_refl ltac:(discriminate))
    as (out1 & out2 & H1 & H2 & H3 & _).
  exists out1, out2. auto.
Defined.

Lemma filter_sublist_mono_in (P1 P2 : Row -> bool) (f : Frame) :
  (forall r, r ∈ f -> P2 r = true -> P1 r = true) ->
  List.filter P2 f `sublist_of` List.filter P1 f.
Proof.
  induction f as [|r f IH]; intros Himp; simpl.
  - constructor.
  - assert (IH' : List.filter P2 f `sublist_of` List.filter P1 f).
    { apply IH. intros r' Hin. apply Himp. right. exact Hin. }
    destruct (P2 r) eqn:H2.
    + rewrite (Himp r ltac:(left) H2). constructor. exact IH'.
    + destruct (P1 r); [constructor|]; exact IH'.
Qed.

Lemma Qsum_nonneg (l : list Q) :
  Forall (fun x => (0 <= x)%Q) l -> (0 <= Qsum l)%Q.
Proof.
  induction 1 as [|x l Hx _ IH]; simpl.
  - apply Qle_refl.
  - rewrite <- (Qplus_0_r 0). apply Qplus_le_compat; assumption.
Qed.

(** With volumes that are not negative, the 20-day average of a prepared
    row is undefined or a number that is not negative. *)
Lemma prepare_avg_nonneg (obs : list Observation) (t : nat) (r : Row) :
  (forall o, o ∈ obs -> (0 <= o_volume o)%Q) ->
  prepare obs !! t = Some r ->
  avg_volume_20d r = NaN \/ exists a, avg_volume_20d r = Fin a /\ (0 <= a)%Q.
Proof.
  intros Hvol Hr.
  assert (Hlen : (t < length obs)%nat).
  { rewrite <- prepare_length. eapply lookup_lt_Some; eauto. }
  destruct (lookup_lt_is_Some_2 obs t Hlen) as [o Ho].
  destruct (prepare_lookup obs t o Ho) as (a & p & Ha & _ & Hrow).
  rewrite Hrow in Hr. inversion Hr; subst r; simpl.
  destruct (rolling_mean_lookup window (map o_volume obs) t) as (v & Hv & Hprop).
  { unfold window; lia. }
  { rewrite length_map; exact Hlen. }
  rewrite Ha in Hv. inversion Hv; subst v.
  destruct (window <=? S t)%nat; [|left; exact Hprop].
  destruct Hprop as [Hfeq Hwin]. right.
  destruct a as [| | |q]; simpl in Hfeq; try contradiction.
  exists q. split; [reflexivity|]. rewrite Hfeq. unfold mean. rewrite Hwin.
  apply Qle_shift_div_l; [reflexivity|].
  rewrite Qmult_0_l. apply Qsum_nonneg.
  unfold window_values. apply Forall_take, Forall_drop.
  apply Forall_forall. intros x Hx. apply list_elem_of_In in Hx.
  apply in_map_iff in Hx. destruct Hx as (o' & <- & Hin).
  apply Hvol. apply list_elem_of_In. exact Hin.
Qed.

Lemma is_breakout_lower_volume (vt1 vt2 pt : Q) (r : Row) :
  (vt1 <= vt2)%Q ->
  avg_volume_20d r = NaN \/ (exists a, avg_volume_20d r = Fin a /\ (0 <= a)%Q) ->
  is_breakout vt2 pt r = true -> is_breakout vt1 pt r = true.
Proof.
  intros Hle Havg. unfold is_breakout. rewrite !andb_true_iff. intros [Hv Hp].
  split; [|exact Hp].
  destruct Havg as [Hnan|(a & Ha & Hpos)].
  - rewrite Hnan, fmul_nan_r, fgt_nan_r in Hv. discriminate Hv.
  - rewrite Ha in Hv |- *. simpl in Hv |- *.
    destruct (volume r) as [| | |v]; simpl in Hv |- *; auto.
    apply Qltb_lt. apply Qltb_lt in Hv.
    eapply Qle_lt_trans; [|exact Hv].
    apply Qmult_le_compat_r; [|exact Hpos].
    unfold Qdiv. apply Qmult_le_compat_r; [exact Hle|discriminate].
Qed.

(** X5: on the frame prepared from a series whose volumes are not
    negative, raising the volume threshold can only remove rows: the
    selection with the higher threshold is a part, in the same order, of
    the selection with the lower one. *)
Theorem identify_breakout_days_monotone_volume (s : store) (data : loc)
    (obs : list Observation) (vt1 vt2 pt : Q) :
  s !! data = Some (prepare obs) ->
  (forall o, o ∈ obs -> (0 <= o_volume o)%Q) ->
  (vt1 <= vt2)%Q ->
  exists out1 out2,
    identify_breakout_days data vt1 pt s = Ok (length s) (s ++ [out1]) /\
    identify_breakout_days data vt2 pt s = Ok (length s) (s ++ [out2]) /\
    out2 `sublist_of` out1 /\
    (length out2 <= length out1)%nat.
Proof.
  intros Hf Hvol Hle.
  exists (List.filter (is_breakout vt1 pt) (prepare obs)),
         (List.filter (is_breakout vt2 pt) (prepare obs)).
  split; [apply identify_breakout_days_run; exact Hf|].
  split; [apply identify_breakout_days_run; exact Hf|].
  assert (Hsub : List.filter (is_breakout vt2 pt) (prepare obs)
                   `sublist_of` List.filter (is_breakout vt1 pt) (prepare obs)).
  { apply filter_sublist_mono_in. intros r Hin.
    apply list_elem_of_lookup in Hin. destruct Hin as [t Ht].
    apply is_breakout_lower_volume; [exact Hle|].
    eapply prepare_avg_nonneg; eauto. }
  split; [exact Hsub|]. apply sublist_length. exact Hsub.
Qed.

Lemma surge_series_volumes : forall o, o ∈ surge_series -> (0 <= o_volume o)%Q.
Proof.
  intros o Hin. apply list_elem_of_In in Hin. unfold surge_series in Hin.
  apply in_map_iff in Hin. destruct Hin as (i & <- & _).
  unfold surge_day_20. simpl. destruct (i =? 20)%nat; discriminate.
Qed.

Lemma identify_breakout_days_monotone_volume_witness :
  [prepare surge_series] !! 0%nat = Some (prepare surge_series) /\
  (100 <= 200)%Q /\
  exists out1 out2,
    identify_breakout_days 0 100 2 [prepare surge_series]
      = Ok 1%nat [prepare surge_series; out1] /\
    identify_breakout_days 0 200 2 [prepare surge_series]
      = Ok 1%nat [prepare surge_series; out2] /\
    (length out2 <= length out1)%nat.
Proof.
  split; [reflexivity|]. split; [discriminate|].
  destruct (identify_breakout_days_monotone_volume [prepare surge_series] 0
              surge_series 100 200 2 eq_refl surge_series_volumes ltac:(discriminate))
    as (out1 & out2 & H1 & H2 & _ & Hlen).
  exists out1, out2. auto.
Defined.

(** ** Returns and percent changes *)

Lemma Qzero_false (c : Q) : ~ (c == 0)%Q -> Qzero c = false.
Proof.
  intros Hc. unfold Qzero. destruct (Qeq_bool c 0) eqn:Heq; [|reflexivity].
  apply Qeq_bool_iff in Heq. contradiction.
Qed.

Lemma Qzero_true (c : Q) : (c == 0)%Q -> Qzero c = true.
Proof. intros Hc. unfold Qzero. apply Qeq_bool_iff. exact Hc. Qed.

Lemma Qsign_positive (c : Q) : (0 < c)%Q -> Qsign c = Some true.
Proof.
  intros Hc. unfold Qsign. rewrite Qzero_false.
  - f_equal. apply Qltb_lt. exact Hc.
  - intros Heq. rewrite Heq in Hc. apply (Qlt_irrefl 0). exact Hc.
Qed.

(** The value of the return formula when the entry close is not zero. *)
Lemma holding_return_of_finite (e c : Q) :
  ~ (c == 0)%Q ->
  holding_return_of (Fin e) (Fin c) = Fin ((e + - c) / c * 100).
Proof.
  intros Hc. unfold holding_return_of. simpl. rewrite (Qzero_false c Hc). reflexivity.
Qed.

(** X6: for a positive entry close the holding return is a number, and it
    is positive, zero or negative exactly when the exit close is above,
    equal to or below the entry close. *)
Theorem holding_return_sign (e c : Q) :
  (0 < c)%Q ->
  exists x, holding_return_of (Fin e) (Fin c) = Fin x /\
    ((0 < x)%Q <-> (c < e)%Q) /\
    ((x == 0)%Q <-> (e == c)%Q) /\
    ((x < 0)%Q <-> (e < c)%Q).
Proof.
  intros Hc.
  assert (Hne : ~ (c == 0)%Q).
  { intros Heq. rewrite Heq in Hc. apply (Qlt_irrefl 0). exact Hc. }
  exists ((e + - c) / c * 100)%Q.
  split; [apply holding_return_of_finite; exact Hne|].
  assert (Hk : (0 < / c * 100)%Q).
  { apply Qmult_lt_0_compat; [apply Qinv_lt_0_compat; exact Hc|reflexivity]. }
  assert (Hx : ((e + - c) / c * 100 == (e - c) * (/ c * 100))%Q).
  { unfold Qdiv, Qminus. ring. }
  rewrite Hx. clear Hx. set (k := (/ c * 100)%Q) in *.
  assert (Hpos : forall y, (0 < y)%Q -> (0 < y * k)%Q).
  { intros y Hy. apply Qmult_lt_0_compat; assumption. }
  assert (Hdiff : forall a b, (a < b)%Q <-> (0 < b - a)%Q).
  { intros a b. rewrite (Qlt_minus_iff a b). unfold Qminus. reflexivity. }
  assert (Hneg : ((e - c) * k < 0)%Q <-> (0 < (c - e) * k)%Q).
  { rewrite (Hdiff ((e - c) * k)%Q 0%Q).
    assert (Heq : (0 - (e - c) * k == (c - e) * k)%Q) by ring.
    rewrite Heq. reflexivity. }
  assert (Hcases : (c < e)%Q \/ (e == c)%Q \/ (e < c)%Q).
  { destruct (Q_dec e c) as [[Hlt|Hgt]|Heq]; auto. }
  assert (Hup : (c < e)%Q -> (0 < (e - c) * k)%Q).
  { intros H. apply Hpos. apply (Hdiff c e). exact H. }
  assert (Hdown : (e < c)%Q -> (0 < (c - e) * k)%Q).
  { intros H. apply Hpos. apply (Hdiff e c). exact H. }
  assert (Hflat : (e == c)%Q -> ((e - c) * k == 0)%Q).
  { intros H. rewrite H. ring. }
  assert (Hopp : ((c - e) * k == - ((e - c) * k))%Q) by ring.
  split; [|split].
  - split; [|exact Hup]. intros Hx.
    destruct Hcases as [H|[H|H]]; [exact H| |].
    + rewrite (Hflat H) in Hx. exfalso. apply (Qlt_irrefl 0). exact Hx.
    + apply Hdown in H. rewrite Hopp in H.
      exfalso. apply (Qlt_irrefl 0).
      apply Qlt_trans with ((e - c) * k)%Q; [exact Hx|].
      apply Qopp_lt_compat in H. rewrite Qopp_involutive in H. exact H.
  - split; [|exact Hflat]. intros Hx.
    destruct Hcases as [H|[H|H]]; [|exact H|].
    + apply Hup in H. rewrite Hx in H. exfalso. apply (Qlt_irrefl 0). exact H.
    + apply Hdown in H. rewrite Hopp, Hx in H.
      exfalso. apply (Qlt_irrefl 0). exact H.
  - rewrite Hneg. split; [|exact Hdown]. intros Hx.
    destruct Hcases as [H|[H|H]]; [| |exact H].
    + apply Hup in H. rewrite Hopp in Hx.
      exfalso. apply (Qlt_irrefl 0).
      apply Qlt_trans with ((e - c) * k)%Q; [exact H|].
      apply Qopp_lt_compat in Hx. rewrite Qopp_involutive in Hx. exact Hx.
    + assert (Hz : ((c - e) * k == 0)%Q) by (rewrite H; ring).
      rewrite Hz in Hx. exfalso. apply (Qlt_irrefl 0). exact Hx.
Qed.

Lemma holding_return_sign_witness :
  (0 < 110)%Q /\
  exists x, holding_return_of (Fin 132) (Fin 110) = Fin x /\ (0 < x)%Q.
Proof.
  split; [reflexivity|].
  destruct (holding_return_sign 132 110 eq_refl) as (x & Hx & Hpos & _).
  exists x. split; [exact Hx|]. apply Hpos. reflexivity.
Defined.

(** X7: when a close of zero is followed by a positive close, the daily
    percent change of the later row is plus infinity, and the row passes
    the price test of [identify_breakout_days] for every threshold. *)
Theorem zero_close_then_rise (obs : list Observation) (t : nat) (o0 o1 : Observation) :
  obs !! t = Some o0 -> obs !! S t = Some o1 ->
  (o_close o0 == 0)%Q -> (0 < o_close o1)%Q ->
  exists r, prepare obs !! S t = Some r /\
    daily_pct_change r = PInf /\
    forall pt : Q, (daily_pct_change r >? Fin pt)%F = true.
Proof.
  intros H0 H1 Hzero Hpos.
  destruct (prepare_lookup obs (S t) o1 H1) as (a & p & _ & Hp & Hrow).
  assert (Hc1 : closes obs !! S t = Some (Fin (o_close o1))).
  { unfold closes. rewrite lookup_map, H1. reflexivity. }
  assert (Hc0 : closes obs !! t = Some (Fin (o_close o0))).
  { unfold closes. rewrite lookup_map, H0. reflexivity. }
  rewrite (pct_change_next _ _ _ _ Hc1 Hc0) in Hp. inversion Hp; subst p.
  eexists. split; [exact Hrow|]. simpl.
  rewrite (Qzero_true _ Hzero), (Qsign_positive _ Hpos). simpl.
  split; [reflexivity|]. intros pt. reflexivity.
Qed.

Lemma zero_close_then_rise_witness :
  [mkObs 0 0 1000; mkObs 1 5 1000] !! 0%nat = Some (mkObs 0 0 1000) /\
  [mkObs 0 0 1000; mkObs 1 5 1000] !! 1%nat = Some (mkObs 1 5 1000) /\
  (o_close (mkObs 0 0 1000) == 0)%Q /\ (0 < o_close (mkObs 1 5 1000))%Q /\
  exists r, prepare [mkObs 0 0 1000; mkObs 1 5 1000] !! 1%nat = Some r /\
    daily_pct_change r = PInf.
Proof.
  split; [reflexivity|]. split; [reflexivity|].
  split; [reflexivity|]. split; [reflexivity|].
  destruct (zero_close_then_rise [mkObs 0 0 1000; mkObs 1 5 1000] 0
              (mkObs 0 0 1000) (mkObs 1 5 1000) eq_refl eq_refl
              ltac:(reflexivity) ltac:(reflexivity))
    as (r & Hr & Hinf & _).
  exists r. auto.
Defined.

(** * The report and the page: properties *)

Lemma run_ok {A : Type} (m : M A) (w : world) (a : A) (s : store) :
  m (frames w) = Ok a s -> run m w = Done a (mkWorld s (files w) (page w)).
Proof. intros H. unfold run. rewrite H. reflexivity. Qed.

Lemma run_raise {A : Type} (m : M A) (w : world) (e : exn) (s : store) :
  m (frames w) = Raise e s ->
  run m w = Uncaught (FrameError e) (mkWorld s (files w) (page w)).
Proof. intros H. unfold run. rewrite H. reflexivity. Qed.

Lemma fs_lookup_insert_eq (fs : file_system) (name : string) (content : csv) :
  (<[name := content]> fs) !! name = Some content.
Proof.
  unfold lookup, fs_lookup, insert, fs_insert. cbn [stored].
  apply lookup_insert_eq.
Qed.


Lemma fs_openable_insert (fs : file_system) (name : string) (content : csv) :
  openable (<[name := content]> fs) = openable fs.
Proof. reflexivity. Qed.

(** [generate_report] on a frame of the store, when the file can be
    opened: the file is written, then opened again for the download
    button. *)
Lemma generate_report_run (w : world) (data : loc) (f : Frame) (filename : string) :
  frames w !! data = Some f ->
  openable (files w) filename = true ->
  generate_report data filename w =
    Done tt (mkWorld (frames w)
               (<[filename := to_csv f]> (files w))
               (page w ++
                  [st_success ("Report saved as " +:+ filename
                               +:+ ". You can download it below.");
                   st_download_button "Download Report" (to_csv f) filename "text/csv"])).
Proof.
  intros Hf Hopen.
  unfold generate_report, mbind, App_bind.
  rewrite (run_ok (read data) w f (frames w)) by (unfold read; rewrite Hf; reflexivity).
  unfold write_file, st, open_file. cbn [frames files page]. rewrite Hopen.
  cbn [frames files page]. rewrite fs_lookup_insert_eq. cbn [frames files page].
  rewrite <- app_assoc. reflexivity.
Qed.

(** When the file cannot be opened, [to_csv] raises and nothing else is
    done. *)
Lemma generate_report_fail (w : world) (data : loc) (f : Frame) (filename : string) :
  frames w !! data = Some f ->
  openable (files w) filename = false ->
  generate_report data filename w =
    Uncaught (OSError filename) (mkWorld (frames w) (files w) (page w)).
Proof.
  intros Hf Hopen.
  unfold generate_report, mbind, App_bind.
  rewrite (run_ok (read data) w f (frames w)) by (unfold read; rewrite Hf; reflexivity).
  unfold write_file. cbn [frames files page]. rewrite Hopen. reflexivity.
Qed.

(** [main] after the button was pressed and the download succeeded. *)
Lemma main_run (ui : widgets) (obs : list Observation) (w : world) :
  generate_report_button ui = true ->
  main ui (inr obs) w =
    let d := prepare obs in
    let b := select_breakouts d (volume_threshold ui) (price_change_threshold ui) in
    match holding_returns_loop d (holding_period ui) b [] with
    | inl e =>
        Uncaught (FrameError e)
          (mkWorld (frames w ++ [d; b]) (files w)
             (page w ++ [st_title "Stock Breakout Analyzer"; st_write intro_text]))
    | inr returns =>
        let b' := set_holding_return b returns in
        match b' with
        | [] =>
            Done tt
              (mkWorld (frames w ++ [d; b']) (files w)
                 (page w ++ [st_title "Stock Breakout Analyzer"; st_write intro_text;
                             st_warning no_breakout_text]))
        | _ :: _ =>
            if openable (files w) (report_name ui) then
              Done tt
                (mkWorld (frames w ++ [d; b'])
                   (<[report_name ui := to_csv b']> (files w))
                   (page w ++ report_page ui b'))
            else
              Uncaught (OSError (report_name ui))
                (mkWorld (frames w ++ [d; b']) (files w)
                   (page w ++ [st_title "Stock Breakout Analyzer";
                               st_write intro_text]))
        end
    end.
Proof.
  intros Hbutton. cbv zeta.
  set (d := prepare obs).
  set (b := select_breakouts d (volume_threshold ui) (price_change_threshold ui)).
  set (s := frames w).
  assert (Hd1 : (s ++ [d]) !! length s = Some d).
  { apply list_lookup_middle. reflexivity. }
  assert (Hd2 : (s ++ [d; b]) !! length s = Some d).
  { apply list_lookup_middle. reflexivity. }
  assert (Hb : (s ++ [d; b]) !! S (length s) = Some b).
  { change (s ++ [d; b]) with (s ++ [d] ++ [b]). rewrite app_assoc.
    apply list_lookup_middle. rewrite length_app. simpl. lia. }
  assert (Hid : identify_breakout_days (length s) (volume_threshold ui)
                  (price_change_threshold ui) (s ++ [d])
                = Ok (S (length s)) (s ++ [d; b])).
  { rewrite (identify_breakout_days_run _ _ d _ _ Hd1).
    unfold b. rewrite select_breakouts_filter.
    rewrite length_app, <- app_assoc. simpl. rewrite Nat.add_1_r. reflexivity. }
  unfold main, mbind, App_bind, st. cbn [frames files page]. rewrite Hbutton.
  unfold fetch_and_prepare_data_app.
  rewrite (run_ok (fetch_and_prepare_data (Some obs)) _ (Some (length s)) (s ++ [d]))
    by reflexivity.
  cbn [frames files page].
  erewrite run_ok by (cbn [frames]; exact Hid). cbn [frames files page].
  pose proof (calculate_holding_returns_run (s ++ [d; b]) (length s) (S (length s))
                d b (holding_period ui) Hd2 Hb) as Hcalc.
  destruct (holding_returns_loop d (holding_period ui) b []) as [e|returns] eqn:Hloop.
  - erewrite run_raise by (cbn [frames]; exact Hcalc). cbn [frames files page].
    rewrite <- app_assoc. reflexivity.
  - erewrite run_ok by (cbn [frames]; exact Hcalc). cbn [frames files page].
    set (b' := set_holding_return b returns).
    assert (Hins : <[S (length s) := b']> (s ++ [d; b]) = s ++ [d; b']).
    { replace (S (length s)) with (length s + 1)%nat by lia.
      rewrite (insert_app_r s [d; b] 1). reflexivity. }
    rewrite Hins.
    assert (Hb' : (s ++ [d; b']) !! S (length s) = Some b').
    { change (s ++ [d; b']) with (s ++ [d] ++ [b']). rewrite app_assoc.
      apply list_lookup_middle. rewrite length_app. simpl. lia. }
    erewrite run_ok by (cbn [frames]; unfold read; rewrite Hb'; reflexivity).
    cbn [frames files page].
    destruct b' as [|r0 rest] eqn:Hcase.
    + cbn [frames files page]. rewrite <- !app_assoc. reflexivity.
    + cbv beta iota.
      destruct (openable (files w) (report_name ui)) eqn:Hopen.
      * erewrite (generate_report_run _ (S (length s)) (r0 :: rest))
          by (cbn [frames files]; first [exact Hb'|exact Hopen]).
        cbn [frames files page]. unfold report_page. rewrite <- !app_assoc.
        reflexivity.
      * erewrite (generate_report_fail _ (S (length s)) (r0 :: rest))
          by (cbn [frames files]; first [exact Hb'|exact Hopen]).
        cbn [frames files page]. rewrite <- !app_assoc. reflexivity.
Qed.


(** The loop on the frames of the pipeline, with a holding period of at
    least one day. *)
Lemma pipeline_loop_total (obs : list Observation) (vt pt : Q) (h : Z) :
  1 <= h ->
  exists returns,
    holding_returns_loop (prepare obs) h (select_breakouts (prepare obs) vt pt) []
      = inr returns /\
    length returns = length (select_breakouts (prepare obs) vt pt).
Proof.
  intros Hh.
  destruct (pipeline_frames obs vt pt) as [Hidx Hsub].
  destruct (holding_returns_loop (prepare obs) h (select_breakouts (prepare obs) vt pt) [])
    as [e|returns] eqn:Hloop.
  - destruct (holding_returns_loop_raise_negative _ _ _ _ Hidx Hloop)
      as (r & Hin & Hneg & _).
    destruct (Hsub r Hin) as [H0 _]. lia.
  - exists returns. split; [reflexivity|].
    eapply holding_returns_loop_length; eauto.
Qed.





(** X11: [main] writes no file and shows no download button when the
    button is not pressed, when the download fails, and when no row passes
    the thresholds: the page then ends with the introduction, with the
    error message of the download, or with the warning that no breakout was
    found, and a failed download leaves the frames as they were. *)
Theorem main_without_report (ui : widgets) (w : world) :
  (generate_report_button ui = false ->
   forall downloaded,
     main ui downloaded w =
       Done tt (mkWorld (frames w) (files w)
                  (page w ++ [st_title "Stock Breakout Analyzer";
                              st_write intro_text]))) /\
  (generate_report_button ui = true ->
   forall e,
     main ui (inl e) w =
       Done tt (mkWorld (frames w) (files w)
                  (page w ++ [st_title "Stock Breakout Analyzer";
                              st_write intro_text;
                              st_error ("Error fetching data for " +:+ ticker ui
                                        +:+ ": " +:+ e)]))) /\
  (generate_report_button ui = true ->
   forall obs,
     select_breakouts (prepare obs) (volume_threshold ui)
       (price_change_threshold ui) = [] ->
     main ui (inr obs) w =
       Done tt (mkWorld (frames w ++ [prepare obs; []]) (files w)
                  (page w ++ [st_title "Stock Breakout Analyzer";
                              st_write intro_text;
                              st_warning no_breakout_text]))).
Proof.
  split; [|split].
  - intros Hbutton downloaded.
    unfold main, mbind, App_bind, st. cbn [frames files page]. rewrite Hbutton.
    cbn [mret App_ret]. rewrite <- !app_assoc. reflexivity.
  - intros Hbutton e.
    unfold main, mbind, App_bind, st. cbn [frames files page]. rewrite Hbutton.
    unfold fetch_and_prepare_data_app, mbind, App_bind, st, run.
    cbn [frames files page fetch_and_prepare_data mret M_ret App_ret].
    rewrite <- !app_assoc. reflexivity.
  - intros Hbutton obs Hnone.
    rewrite (main_run ui obs w Hbutton). cbv zeta. rewrite Hnone. reflexivity.
Qed.

Lemma main_without_report_witness :
  generate_report_button default_widgets = true /\
  select_breakouts (prepare (map flat_day (seq 0 25)))
    (volume_threshold default_widgets) (price_change_threshold default_widgets) = [] /\
  main default_widgets (inr (map flat_day (seq 0 25))) empty_world =
    Done tt (mkWorld [prepare (map flat_day (seq 0 25)); []] ∅
               [st_title "Stock Breakout Analyzer"; st_write intro_text;
                st_warning no_breakout_text]).
Proof.
  assert (Hnone : select_breakouts (prepare (map flat_day (seq 0 25)))
                    (volume_threshold default_widgets)
                    (price_change_threshold default_widgets) = []).
  { vm_compute. reflexivity. }
  split; [reflexivity|]. split; [exact Hnone|].
  destruct (main_without_report default_widgets empty_world) as (_ & _ & Hcase).
  exact (Hcase eq_refl _ Hnone).
Defined.



(** ** Bounds on the selection and on the returns *)

Lemma filter_take_none (P : Row -> bool) (f : Frame) (n : nat) :
  (forall t r, (t < n)%nat -> f !! t = Some r -> P r = false) ->
  List.filter P f = List.filter P (drop n f).
Proof.
  intros Hnone.
  rewrite <- (take_drop n f) at 1. rewrite List.filter_app.
  rewrite filter_none; [reflexivity|].
  intros r Hin. apply list_elem_of_lookup in Hin. destruct Hin as [t Ht].
  pose proof (lookup_lt_Some _ _ _ Ht) as Hlt. rewrite length_take in Hlt.
  rewrite lookup_take_lt in Ht by lia.
  apply (Hnone t r); [lia|exact Ht].
Qed.

(** X13: the rows that [identify_breakout_days] selects from a prepared
    frame all come from the rows 19 and later, so a series of [n]
    observations has at most [n - 19] breakout days, whatever the
    thresholds. *)
Theorem breakouts_at_most (s : store) (data : loc) (obs : list Observation) (vt pt : Q) :
  s !! data = Some (prepare obs) ->
  exists out,
    identify_breakout_days data vt pt s = Ok (length s) (s ++ [out]) /\
    out `sublist_of` drop 19 (prepare obs) /\
    (length out <= length obs - 19)%nat.
Proof.
  intros Hf. exists (List.filter (is_breakout vt pt) (prepare obs)).
  split; [apply identify_breakout_days_run; exact Hf|].
  assert (Heq : List.filter (is_breakout vt pt) (prepare obs)
                = List.filter (is_breakout vt pt) (drop 19 (prepare obs))).
  { apply filter_take_none. intros t r Hlt Hr. unfold is_breakout.
    rewrite (prepare_avg_undefined obs t r Hr Hlt), fmul_nan_r, fgt_nan_r.
    reflexivity. }
  assert (Hsub : List.filter (is_breakout vt pt) (prepare obs)
                   `sublist_of` drop 19 (prepare obs)).
  { rewrite Heq. apply filter_sublist_of. }
  split; [exact Hsub|].
  apply sublist_length in Hsub. rewrite length_drop, prepare_length in Hsub.
  exact Hsub.
Qed.

Lemma breakouts_at_most_witness :
  [prepare surge_series] !! 0%nat = Some (prepare surge_series) /\
  exists out,
    identify_breakout_days 0 0 (-100) [prepare surge_series]
      = Ok 1%nat [prepare surge_series; out] /\
    (length out <= 6)%nat.
Proof.
  split; [reflexivity|].
  destruct (breakouts_at_most [prepare surge_series] 0 surge_series 0 (-100) eq_refl)
    as (out & Hrun & _ & Hlen).
  exists out. split; [exact Hrun|]. exact Hlen.
Defined.

(** X14: when the holding period is at least the length of the series,
    the pipeline raises nothing and every breakout row it returns has the
    holding return [None]: the rows are kept, without a return. *)
Theorem long_period_no_return (obs : list Observation) (vt pt : Q) (h : Z) (s : store) :
  1 <= h -> Z.of_nat (length obs) <= h ->
  exists b',
    analyze (Some obs) vt pt h s
      = Ok (Some (S (length s))) (s ++ [prepare obs; b']) /\
    map base b' = map base (select_breakouts (prepare obs) vt pt) /\
    forall r, r ∈ b' -> holding_return r = Cell None.
Proof.
  intros Hh Hlong.
  destruct (pipeline_loop_total obs vt pt h Hh) as (returns & Hloop & Hlen).
  destruct (pipeline_frames obs vt pt) as [Hidx Hsub].
  set (b := select_breakouts (prepare obs) vt pt) in *.
  exists (set_holding_return b returns).
  split; [rewrite analyze_run; fold b; rewrite Hloop; reflexivity|].
  split; [apply set_holding_return_base; exact Hlen|].
  intros r Hin. apply list_elem_of_lookup in Hin. destruct Hin as [k Hk].
  unfold set_holding_return in Hk. rewrite lookup_zip_with in Hk.
  destruct (b !! k) as [r0|] eqn:Hr0; [|discriminate]. simpl in Hk.
  destruct (returns !! k) as [v|] eqn:Hv; [|discriminate]. simpl in Hk.
  inversion Hk; subst r. simpl. f_equal.
  apply holding_returns_loop_ok in Hloop.
  destruct (Forall2_lookup_l _ _ _ _ _ Hloop Hr0) as (v' & Hv' & Hrow).
  rewrite Hv in Hv'. inversion Hv'; subst v'.
  assert (Hin0 : r0 ∈ b) by (apply list_elem_of_lookup; eauto).
  destruct (Hsub r0 Hin0) as [H0 _].
  rewrite holding_return_row_outside in Hrow.
  - inversion Hrow. reflexivity.
  - rewrite prepare_length. lia.
Qed.

Lemma long_period_no_return_witness :
  1 <= 30 /\ Z.of_nat (length surge_series) <= 30 /\
  exists b',
    analyze (Some surge_series) 200 2 30 [] = Ok (Some 1%nat) [prepare surge_series; b'] /\
    length b' = 1%nat.
Proof.
  split; [lia|]. split; [simpl; lia|].
  destruct (long_period_no_return surge_series 200 2 30 [] ltac:(lia) ltac:(simpl; lia))
    as (b' & Hrun & Hbase & _).
  exists b'. split; [exact Hrun|].
  apply (f_equal length) in Hbase. rewrite !length_map in Hbase. rewrite Hbase.
  vm_compute. reflexivity.
Defined.
